(** * charmcraft store client: a shallow embedding of
      [charmcraft/commands/store/client.py]

    The development follows the layout of the Python module:
    - the Python values the module manipulates (parsed JSON, strings,
      integers, the float produced by [/]) and the exceptions it raises;
    - the world the module acts upon (open file handles, standard output,
      the debug log, the HTTP requests issued) together with a small
      state-and-exception monad;
    - [build_user_agent], [_storage_push] and the [Client] class;
    - the properties of these operations. *)

From Stdlib Require Import String Ascii List ZArith Lia Bool.
From Stdlib Require Import DecimalString.
From Stdlib Require Import Floats.SpecFloat.
Import ListNotations.

#[local] Set Warnings "-register-all".

Local Open Scope string_scope.
Local Open Scope Z_scope.

(** ** Strings *)

(** [sub in s]: the string [sub] occurs in [s]. *)
Definition contains (sub s : string) : Prop :=
  exists pre post, s = pre ++ sub ++ post.

(** [str.startswith]. *)
Definition startswith (key pre : string) : bool := String.prefix pre key.

(** The string made of [n] copies of the character [c]. *)
Fixpoint repeat_char (c : ascii) (n : nat) : string :=
  match n with
  | O => EmptyString
  | S k => String c (repeat_char c k)
  end.

(** Membership of a character in the character set given as a string. *)
Fixpoint char_in (c : ascii) (chars : string) : bool :=
  match chars with
  | EmptyString => false
  | String d rest => Ascii.eqb c d || char_in c rest
  end.

(** [str.rstrip(chars)]: drop the longest suffix made of characters of
    [chars]. *)
Fixpoint rstrip (chars s : string) : string :=
  match s with
  | EmptyString => EmptyString
  | String c rest =>
      match rstrip chars rest with
      | EmptyString => if char_in c chars then EmptyString else String c EmptyString
      | kept => String c kept
      end
  end.

Definition ends_with_char (c : ascii) (s : string) : Prop :=
  exists pre, s = pre ++ String c EmptyString.

(** [str(n)] for an integer. *)
Definition str_int (n : Z) : string := NilZero.string_of_int (Z.to_int n).

Definition squote : ascii := "'"%char.
Definition dquote : ascii := ascii_of_nat 34.
Definition backslash : ascii := "\"%char.

Definition hex_digit (n : nat) : ascii :=
  nth n (list_ascii_of_string "0123456789abcdef") "0"%char.

(** The escape of one character inside [repr] of a string.  Characters are
    code points below 256; among those, the ones [str.isprintable] rejects
    are the C0 and C1 controls, DEL, the no-break space and the soft
    hyphen. *)
Definition repr_char (quote c : ascii) : string :=
  let n := nat_of_ascii c in
  if Ascii.eqb c quote || Ascii.eqb c backslash then String backslash (String c EmptyString)
  else if Nat.eqb n 9 then "\t"
  else if Nat.eqb n 10 then "\n"
  else if Nat.eqb n 13 then "\r"
  else if Nat.ltb n 32 || Nat.eqb n 127
          || (Nat.leb 128 n && Nat.leb n 160) || Nat.eqb n 173
       then "\x" ++ String (hex_digit (Nat.div n 16))
                      (String (hex_digit (Nat.modulo n 16)) EmptyString)
  else String c EmptyString.

Fixpoint repr_chars (quote : ascii) (s : string) : string :=
  match s with
  | EmptyString => EmptyString
  | String c rest => repr_char quote c ++ repr_chars quote rest
  end.

(** [repr(s)] for a string: single quotes, unless the string holds a single
    quote and no double quote. *)
Definition repr_str (s : string) : string :=
  let quote := if char_in squote s && negb (char_in dquote s) then dquote else squote in
  String quote (repr_chars quote s ++ String quote EmptyString).

(** ** Python values *)

(** The values [json()] produces.  A float is kept as its [repr], the
    shortest decimal literal that reads back as the same float; a dict keeps
    its items in insertion order. *)
Inductive pyval : Type :=
  | PNone
  | PBool (b : bool)
  | PInt (n : Z)
  | PFloat (literal : string)
  | PStr (s : string)
  | PList (items : list pyval)
  | PDict (items : list (string * pyval)).

(** Truth value testing, as [not x] and [if x] perform it. *)
Definition truthy (v : pyval) : bool :=
  match v with
  | PNone => false
  | PBool b => b
  | PInt n => negb (n =? 0)
  | PFloat lit => negb (String.eqb lit "0.0" || String.eqb lit "-0.0")
  | PStr s => negb (String.eqb s EmptyString)
  | PList items => match items with [] => false | _ => true end
  | PDict items => match items with [] => false | _ => true end
  end.

Fixpoint repr (v : pyval) : string :=
  match v with
  | PNone => "None"
  | PBool true => "True"
  | PBool false => "False"
  | PInt n => str_int n
  | PFloat lit => lit
  | PStr s => repr_str s
  | PList items => "[" ++ String.concat ", " (map repr items) ++ "]"
  | PDict items =>
      "{" ++ String.concat ", "
               (map (fun kv => repr_str (fst kv) ++ ": " ++ repr (snd kv)) items)
          ++ "}"
  end.

(** [str(v)], which is also what [format] with an empty format spec and the
    [%s] conversion produce. *)
Definition str (v : pyval) : string :=
  match v with
  | PStr s => s
  | _ => repr v
  end.

(** Lookup of a key in the items of a dict. *)
Fixpoint dict_get (items : list (string * pyval)) (key : string) : option pyval :=
  match items with
  | [] => None
  | (k, v) :: rest => if String.eqb k key then Some v else dict_get rest key
  end.

(** ** Exceptions and outcomes *)

Inductive exn : Type :=
  | CommandError (message : string) (cause : option exn)
  | StoreClientError (message : string)
  | JSONDecodeError (message : string)
  | KeyError (key : string)
  | TypeError (message : string)
  | ZeroDivisionError (message : string)
  | OverflowError (message : string)
  | OSError (message : string)
  | OtherError (class_name message : string).

Inductive outcome (A : Type) : Type :=
  | Ok (value : A)
  | Raise (e : exn).
Arguments Ok {A} value.
Arguments Raise {A} e.

(** [isinstance(e, craft_store.errors.StoreClientError)]. *)
Definition is_StoreClientError (e : exn) : bool :=
  match e with StoreClientError _ => true | _ => false end.

Definition is_JSONDecodeError (e : exn) : bool :=
  match e with JSONDecodeError _ => true | _ => false end.

Definition is_CommandError (e : exn) : bool :=
  match e with CommandError _ _ => true | _ => false end.

(** [str(e)]. *)
Definition exn_str (e : exn) : string :=
  match e with
  | CommandError message _ => message
  | StoreClientError message => message
  | JSONDecodeError message => message
  | KeyError key => repr_str key
  | TypeError message => message
  | ZeroDivisionError message => message
  | OverflowError message => message
  | OSError message => message
  | OtherError _ message => message
  end.

(** The subscription [v[key]] with a string key. *)
Definition getitem (v : pyval) (key : string) : outcome pyval :=
  match v with
  | PDict items =>
      match dict_get items key with
      | Some x => Ok x
      | None => Raise (KeyError key)
      end
  | PList _ => Raise (TypeError "list indices must be integers or slices, not str")
  | PStr _ => Raise (TypeError "string indices must be integers")
  | PNone => Raise (TypeError "'NoneType' object is not subscriptable")
  | PBool _ => Raise (TypeError "'bool' object is not subscriptable")
  | PInt _ => Raise (TypeError "'int' object is not subscriptable")
  | PFloat _ => Raise (TypeError "'float' object is not subscriptable")
  end.

(** ** Floats *)

(** An integer as an unrounded binary number: mantissa [|n|], exponent 0. *)
Definition float_of_int_exact (n : Z) : spec_float :=
  match n with
  | Z0 => S754_zero false
  | Zpos p => S754_finite false p 0
  | Zneg p => S754_finite true p 0
  end.

(** True division [a / b] of two integers: the binary64 float nearest to the
    exact quotient (ties to even); a zero divisor and a quotient beyond the
    floats raise. *)
Definition int_truediv (a b : Z) : outcome spec_float :=
  match b with
  | Z0 => Raise (ZeroDivisionError "division by zero")
  | _ =>
      match SFdiv 53 1024 (float_of_int_exact a) (float_of_int_exact b) with
      | S754_infinity _ =>
          Raise (OverflowError "integer division result too large for a float")
      | q => Ok q
      end
  end.

Definition sign_str (negative : bool) : string :=
  if negative then "-" else EmptyString.

(** Two decimal digits, zero padded. *)
Definition two_digits (n : Z) : string :=
  if n <? 10 then "0" ++ str_int n else str_int n.

(** [format(x, ".2f")]: the exact value of the float rounded to two decimals,
    ties to even. *)
Definition format_2f (x : spec_float) : string :=
  match x with
  | S754_nan => "nan"
  | S754_infinity s => sign_str s ++ "inf"
  | S754_zero s => sign_str s ++ "0.00"
  | S754_finite s m e =>
      let num := if 0 <=? e then Zpos m * 2 ^ e * 100 else Zpos m * 100 in
      let den := if 0 <=? e then 1 else 2 ^ (- e) in
      let q := num / den in
      let r := num mod den in
      let hundredths :=
        match 2 * r ?= den with
        | Lt => q
        | Gt => q + 1
        | Eq => if Z.even q then q else q + 1
        end in
      sign_str s ++ str_int (hundredths / 100) ++ "." ++ two_digits (hundredths mod 100)
  end.

Definition float_100 : spec_float := S754_finite false 7036874417766400 (-46).

(** ** The world *)

(** What [MultipartEncoder] is built from: field name, then file name, file
    handle and content type. *)
Record FileField : Type := {
  field_name : string;
  file_name : string;
  file_handle : nat;
  file_content_type : string
}.

(** The attributes of a [MultipartEncoder] that the module reads. *)
Record MultipartEncoder : Type := {
  fields : list FileField;
  content_type : string;
  len : Z
}.

Record HttpRequest : Type := {
  req_method : string;
  req_url : string;
  req_headers : list (string * string);
  req_user_agent : string;
  req_data : MultipartEncoder
}.

(** A [requests.Response]: the status code and what [json()] does. *)
Record Response : Type := {
  status_code : Z;
  json : outcome pyval
}.

(** How the transport consumes a request: the sizes of the successive reads
    of the body, then the response or the error of the exchange. *)
Record Transfer : Type := {
  chunks : list Z;
  exchange : outcome Response
}.

Record LogRecord : Type := {
  log_level : string;
  log_message : string
}.

Record World : Type := {
  open_files : list nat;        (* handles currently open *)
  next_fd : nat;                (* the handle the next [open] returns *)
  stdout : list string;         (* what was printed, oldest first *)
  log : list LogRecord;         (* records of the module's logger *)
  requests : list HttpRequest   (* requests sent to the storage *)
}.

(** ** State and exceptions *)

Definition M (A : Type) : Type := World -> outcome A * World.

Definition ret {A} (x : A) : M A := fun w => (Ok x, w).

Definition bind {A B} (c : M A) (k : A -> M B) : M B :=
  fun w =>
    match c w with
    | (Ok x, w') => k x w'
    | (Raise e, w') => (Raise e, w')
    end.

Definition raise {A} (e : exn) : M A := fun w => (Raise e, w).

Definition lift {A} (o : outcome A) : M A := fun w => (o, w).

Declare Scope py_scope.
Delimit Scope py_scope with py.
Notation "x <- c ;; k" := (bind c (fun x => k))
  (at level 61, c at next level, right associativity) : py_scope.
Notation "c ;; k" := (bind c (fun _ => k))
  (at level 61, right associativity) : py_scope.
Local Open Scope py_scope.

(** [try: body / except <class> as e: handler e]. *)
Definition try_except {A} (body : M A) (catches : exn -> bool) (handler : exn -> M A) : M A :=
  fun w =>
    match body w with
    | (Raise e, w') => if catches e then handler e w' else (Raise e, w')
    | done => done
    end.

Definition file_close (fh : nat) : M unit :=
  fun w =>
    (Ok tt, {| open_files := remove Nat.eq_dec fh (open_files w);
               next_fd := next_fd w;
               stdout := stdout w;
               log := log w;
               requests := requests w |}).

(** [with acquire as fh: body fh]: the file is closed when the block is
    left, normally or by an exception, and the exception goes on. *)
Definition with_file {A} (acquire : M nat) (body : nat -> M A) : M A :=
  fun w =>
    match acquire w with
    | (Raise e, w1) => (Raise e, w1)
    | (Ok fh, w1) =>
        let (result, w2) := body fh w1 in
        (result, snd (file_close fh w2))
    end.

(** [print] with an empty [end] and [flush=True]. *)
Definition print (text : string) : M unit :=
  fun w =>
    (Ok tt, {| open_files := open_files w;
               next_fd := next_fd w;
               stdout := stdout w ++ [text];
               log := log w;
               requests := requests w |}).

Definition logger_debug (message : string) : M unit :=
  fun w =>
    (Ok tt, {| open_files := open_files w;
               next_fd := next_fd w;
               stdout := stdout w;
               log := log w ++ [{| log_level := "DEBUG"; log_message := message |}];
               requests := requests w |}).

Definition send (r : HttpRequest) : M unit :=
  fun w =>
    (Ok tt, {| open_files := open_files w;
               next_fd := next_fd w;
               stdout := stdout w;
               log := log w;
               requests := requests w ++ [r] |}).

(** Every open handle was handed out by an earlier [open]. *)
Definition handles_allocated (w : World) : Prop :=
  forall fh, In fh (open_files w) -> (fh < next_fd w)%nat.

(** ** The environment of the module *)

(** A [pathlib.Path], by its string with [/] separators. *)
Record Path : Type := { path_str : string }.

(** [Path.name]: the final component. *)
Fixpoint basename (s : string) : string :=
  match s with
  | EmptyString => EmptyString
  | String c rest =>
      if char_in "/"%char rest then basename rest
      else if Ascii.eqb c "/"%char then rest
      else String c rest
  end.

Definition path_name (p : Path) : string := basename (path_str p).

(** The named tuple [utils.get_os_platform] returns. *)
Record OSPlatform : Type := {
  system : string;
  release : string;
  machine : string
}.

Inductive Endpoints : Type := CHARMHUB | SNAP_STORE.

(** What [craft_store.StoreClient.__init__] is given. *)
Record StoreClient : Type := {
  base_url : string;
  config_path : Path;
  endpoints : Endpoints;
  user_agent : string
}.

(** Everything the module obtains from outside itself: the process
    environment, version and platform facts, the file system, the multipart
    encoder, the transport towards the storage and the authenticated
    session of [craft_store.StoreClient]. *)
Record Env : Type := {
  os_environ : list (string * string);
  __version__ : string;
  get_os_platform : OSPlatform;
  python_version : string;
  user_config_dir : string -> string;
  open_error : Path -> option exn;
  multipart_content_type : list FileField -> string;
  multipart_len : list FileField -> Z;
  http_exchange : HttpRequest -> Transfer;
  StoreClient_request :
    StoreClient -> string -> string -> list (string * pyval) -> M Response
}.

(** [filepath.open("rb")]. *)
Definition path_open (env : Env) (filepath : Path) : M nat :=
  fun w =>
    match open_error env filepath with
    | Some e => (Raise e, w)
    | None =>
        (Ok (next_fd w),
         {| open_files := next_fd w :: open_files w;
            next_fd := S (next_fd w);
            stdout := stdout w;
            log := log w;
            requests := requests w |})
    end.

Definition new_MultipartEncoder (env : Env) (fs : list FileField) : MultipartEncoder :=
  {| fields := fs;
     content_type := multipart_content_type env fs;
     len := multipart_len env fs |}.

(** The attributes of a [MultipartEncoderMonitor] its callback can read. *)
Record MonitorState : Type := {
  encoder : MultipartEncoder;
  bytes_read : Z
}.

Definition monitor_len (m : MonitorState) : Z := len (encoder m).

Record MultipartEncoderMonitor : Type := {
  monitor_state : MonitorState;
  callback : MonitorState -> M unit
}.

Definition new_MultipartEncoderMonitor
    (enc : MultipartEncoder) (cb : MonitorState -> M unit) : MultipartEncoderMonitor :=
  {| monitor_state := {| encoder := enc; bytes_read := 0 |}; callback := cb |}.

Definition monitor_content_type (m : MultipartEncoderMonitor) : string :=
  content_type (encoder (monitor_state m)).

(** The reads of the body by the transport: each one adds its size to
    [bytes_read] and then calls the callback on the monitor. *)
Fixpoint read_all (cb : MonitorState -> M unit) (m : MonitorState) (sizes : list Z)
  : M MonitorState :=
  match sizes with
  | [] => ret m
  | size :: rest =>
      let m' := {| encoder := encoder m; bytes_read := bytes_read m + size |} in
      cb m' ;; read_all cb m' rest
  end.

Record HTTPClient : Type := { client_user_agent : string }.

(** [client.post(url, headers=headers, data=monitor)]. *)
Definition HTTPClient_post (env : Env) (client : HTTPClient) (url : string)
    (headers : list (string * string)) (data : MultipartEncoderMonitor) : M Response :=
  let r := {| req_method := "POST";
              req_url := url;
              req_headers := headers;
              req_user_agent := client_user_agent client;
              req_data := encoder (monitor_state data) |} in
  send r ;;
  read_all (callback data) (monitor_state data) (chunks (http_exchange env r)) ;;
  lift (exchange (http_exchange env r)).

(** ** The module *)

Definition TESTING_ENV_PREFIXES : list string := ["TRAVIS"; "AUTOPKGTEST_TMP"].

Definition carriage_return : string := String (ascii_of_nat 13) EmptyString.

Definition os_platform_string (p : OSPlatform) : string :=
  system p ++ "/" ++ release p ++ " (" ++ machine p ++ ")".

Section Module_level.
Context (env : Env).

(** The test of [build_user_agent]: some key of the environment starts with
    some prefix of [TESTING_ENV_PREFIXES]. *)
Definition testing_environment : bool :=
  existsb (fun pre => existsb (fun key => startswith key pre) (map fst (os_environ env)))
          TESTING_ENV_PREFIXES.

Definition build_user_agent : string :=
  let testing := if testing_environment then " (testing) " else " " in
  let os_platform := os_platform_string (get_os_platform env) in
  "charmcraft/" ++ __version__ env ++ testing ++ os_platform
    ++ " python/" ++ python_version env.

Definition _storage_push (monitor : MultipartEncoderMonitor) (storage_base_url : string)
  : M pyval :=
  let url := storage_base_url ++ "/unscanned-upload/" in
  let headers :=
    [("Content-Type", monitor_content_type monitor); ("Accept", "application/json")] in
  let client := {| client_user_agent := build_user_agent |} in
  response <- HTTPClient_post env client url headers monitor ;;
  lift (json response).

End Module_level.

(** The callback nested in [push_file]. *)
Definition _progress (monitor : MonitorState) : M unit :=
  if bytes_read monitor <=? monitor_len monitor then
    progress <- lift (int_truediv (100 * bytes_read monitor) (monitor_len monitor)) ;;
    print ("Uploading... " ++ format_2f progress ++ "%" ++ carriage_return)
  else ret tt.

Module Client.

Record t : Type := {
  super : StoreClient;
  storage_base_url : string
}.

Section Methods.
Context (env : Env).

Definition __init__ (api_base_url storage_base_url : string) : t :=
  let config_path := {| path_str := user_config_dir env "charmcraft.creds" |} in
  let api_base_url := rstrip "/" api_base_url in
  {| storage_base_url := rstrip "/" storage_base_url;
     super := {| base_url := api_base_url;
                 config_path := config_path;
                 endpoints := CHARMHUB;
                 user_agent := build_user_agent env |} |}.

Definition request (self : t) (method url : string) (kwargs : list (string * pyval))
  : M Response :=
  try_except (StoreClient_request env (super self) method url kwargs)
    is_StoreClientError
    (fun store_error => raise (CommandError (exn_str store_error) (Some store_error))).

Definition request_json (self : t) (method url : string) (kwargs : list (string * pyval))
  : M pyval :=
  response <- request self method url kwargs ;;
  try_except (lift (json response))
    is_JSONDecodeError
    (fun json_error =>
       raise (CommandError
                ("Could not retrieve json response ("
                   ++ str_int (status_code response) ++ " from request")
                (Some json_error))).

(** The multipart fields [push_file] hands to the encoder. *)
Definition push_file_fields (filepath : Path) (fh : nat) : list FileField :=
  [{| field_name := "binary";
      file_name := path_name filepath;
      file_handle := fh;
      file_content_type := "application/octet-stream" |}].

(** The first half of [push_file], up to the end of the [with] block: its
    value is the parsed response of the storage. *)
Definition push_file_response (self : t) (filepath : Path) : M pyval :=
  logger_debug ("Starting to push " ++ repr_str (path_str filepath)) ;;
  with_file (path_open env filepath)
    (fun fh =>
       let encoder := new_MultipartEncoder env (push_file_fields filepath fh) in
       let monitor := new_MultipartEncoderMonitor encoder _progress in
       _storage_push env monitor (storage_base_url self)).

Definition push_file (self : t) (filepath : Path) : M pyval :=
  response <- push_file_response self filepath ;;
  let result := response in
  successful <- lift (getitem result "successful") ;;
  if negb (truthy successful) then
    raise (CommandError ("Server error while pushing file: " ++ str result) None)
  else
    upload_id <- lift (getitem result "upload_id") ;;
    logger_debug ("Uploading bytes ended, id " ++ str upload_id) ;;
    ret upload_id.

End Methods.

End Client.

(** ** Vocabulary of the properties *)

(** Some key of the environment starts with a recognised prefix. *)
Definition has_testing_key (env : Env) : Prop :=
  exists key pre,
    In key (map fst (os_environ env)) /\ In pre TESTING_ENV_PREFIXES
    /\ startswith key pre = true.

(** The computation leaves the component [proj] of the world as it found
    it, whatever its outcome. *)
Definition keeps {T A} (proj : World -> T) (c : M A) : Prop :=
  forall w, proj (snd (c w)) = proj w.

(** The one request [push_file] sends for the file opened as [fh]. *)
Definition upload_request (env : Env) (self : Client.t) (filepath : Path) (fh : nat)
  : HttpRequest :=
  {| req_method := "POST";
     req_url := Client.storage_base_url self ++ "/unscanned-upload/";
     req_headers :=
       [("Content-Type", multipart_content_type env (Client.push_file_fields filepath fh));
        ("Accept", "application/json")];
     req_user_agent := build_user_agent env;
     req_data := new_MultipartEncoder env (Client.push_file_fields filepath fh) |}.

(** The line that reports a finished upload. *)
Definition progress_line_100 : string := "Uploading... 100.00%" ++ carriage_return.

(** A concrete environment: the storage answers every request with
    [answer], after three reads of the 300 byte body. *)
Definition sample_env (environ : list (string * string)) (answer : Response)
    (session : M Response) : Env :=
  {| os_environ := environ;
     __version__ := "1.5.0";
     get_os_platform := {| system := "ubuntu"; release := "20.04"; machine := "x86_64" |};
     python_version := "3.8.10";
     user_config_dir := fun app => "/home/user/.config/" ++ app;
     open_error := fun _ => None;
     multipart_content_type := fun _ => "multipart/form-data; boundary=0a1b2c";
     multipart_len := fun _ => 300;
     http_exchange := fun _ => {| chunks := [128; 128; 44]; exchange := Ok answer |};
     StoreClient_request := fun _ _ _ _ => session |}.

Definition sample_world : World :=
  {| open_files := [0%nat; 1%nat; 2%nat]; next_fd := 3; stdout := []; log := []; requests := [] |}.

Definition sample_path : Path := {| path_str := "/tmp/build/mycharm.charm" |}.

Definition answer_of (status : Z) (body : outcome pyval) : Response :=
  {| status_code := status; json := body |}.

Definition not_json : Response :=
  answer_of 502 (Raise (JSONDecodeError "Expecting value")).

Definition accepted : pyval :=
  PDict [("successful", PBool true); ("upload_id", PStr "abc123")].

Definition rejected : pyval :=
  PDict [("successful", PBool false); ("upload_id", PNone)].

Definition incomplete : pyval := PDict [("successful", PBool true)].

Definition env_accepting : Env :=
  sample_env [("HOME", "/home/user")] (answer_of 200 (Ok accepted)) (ret not_json).

Definition env_rejecting : Env :=
  sample_env [("HOME", "/home/user")] (answer_of 200 (Ok rejected)) (ret not_json).

Definition env_incomplete : Env :=
  sample_env [("HOME", "/home/user")] (answer_of 200 (Ok incomplete)) (ret not_json).

Definition env_malformed : Env :=
  sample_env [("HOME", "/home/user")] (answer_of 200 (Ok accepted)) (ret not_json).

Definition env_logged_out : Env :=
  sample_env [("HOME", "/home/user")] (answer_of 200 (Ok accepted))
    (raise (StoreClientError "not logged in")).

Definition env_testing : Env :=
  sample_env [("HOME", "/home/user"); ("TRAVIS_BUILD_ID", "42")]
    (answer_of 200 (Ok accepted)) (ret not_json).

Definition sample_client (env : Env) : Client.t :=
  Client.__init__ env "https://api.example.com/" "https://storage.example.com//".

Definition sample_encoder : MultipartEncoder :=
  new_MultipartEncoder env_accepting (Client.push_file_fields sample_path 3).

(** The monitor after the last read of the body, and after a read past it. *)
Definition monitor_done : MonitorState := {| encoder := sample_encoder; bytes_read := 300 |}.

Definition monitor_over : MonitorState := {| encoder := sample_encoder; bytes_read := 301 |}.

(** ** Further vocabulary *)

Definition logger_warning (message : string) : M unit :=
  fun w =>
    (Ok tt, {| open_files := open_files w;
               next_fd := next_fd w;
               stdout := stdout w;
               log := log w ++ [{| log_level := "WARNING"; log_message := message |}];
               requests := requests w |}).

(** [visit_page_with_browser]; [webbrowser_open url new] stands for
    [webbrowser.open(url, new=new)], whose boolean result is dropped. *)
Definition visit_page_with_browser (webbrowser_open : string -> Z -> M bool)
    (visit_url : string) : M unit :=
  logger_warning
    ("Opening an authorization web page in your browser; if it does not open, "
       ++ "please open this URL: " ++ visit_url) ;;
  webbrowser_open visit_url 1 ;;
  ret tt.

(** The text the callback prints for the progress [q]. *)
Definition progress_text (q : spec_float) : string :=
  "Uploading... " ++ format_2f q ++ "%" ++ carriage_return.

(** [text] is what the callback prints for some read within a body of
    [total] bytes. *)
Definition progress_of (total : Z) (text : string) : Prop :=
  exists read q,
    read <= total /\ int_truediv (100 * read) total = Ok q /\ text = progress_text q.

(** What the exchange of a request gives once parsed: the JSON of the
    response, or the error of the exchange. *)
Definition parsed_exchange (t : Transfer) : outcome pyval :=
  match exchange t with
  | Ok response => json response
  | Raise e => Raise e
  end.

(** The debug records of [push_file]. *)
Definition starting_record (filepath : Path) : LogRecord :=
  {| log_level := "DEBUG";
     log_message := "Starting to push " ++ repr_str (path_str filepath) |}.

Definition ended_record (upload_id : pyval) : LogRecord :=
  {| log_level := "DEBUG";
     log_message := "Uploading bytes ended, id " ++ str upload_id |}.

(** An environment whose storage cannot be reached, and one where no file
    can be opened. *)
Definition env_unreachable : Env :=
  {| os_environ := [("HOME", "/home/user")];
     __version__ := "1.5.0";
     get_os_platform := {| system := "ubuntu"; release := "20.04"; machine := "x86_64" |};
     python_version := "3.8.10";
     user_config_dir := fun app => "/home/user/.config/" ++ app;
     open_error := fun _ => None;
     multipart_content_type := fun _ => "multipart/form-data; boundary=0a1b2c";
     multipart_len := fun _ => 300;
     http_exchange := fun _ =>
       {| chunks := [128];
          exchange := Raise (OtherError "NetworkError" "connection reset") |};
     StoreClient_request := fun _ _ _ _ => ret (answer_of 200 (Ok accepted)) |}.

Definition env_no_file : Env :=
  {| os_environ := [("HOME", "/home/user")];
     __version__ := "1.5.0";
     get_os_platform := {| system := "ubuntu"; release := "20.04"; machine := "x86_64" |};
     python_version := "3.8.10";
     user_config_dir := fun app => "/home/user/.config/" ++ app;
     open_error := fun _ => Some (OSError "No such file or directory");
     multipart_content_type := fun _ => "multipart/form-data; boundary=0a1b2c";
     multipart_len := fun _ => 300;
     http_exchange := fun _ =>
       {| chunks := [128; 128; 44]; exchange := Ok (answer_of 200 (Ok accepted)) |};
     StoreClient_request := fun _ _ _ _ => ret (answer_of 200 (Ok accepted)) |}.

(** A storage whose answer is not JSON. *)
Definition env_garbled : Env :=
  sample_env [("HOME", "/home/user")] not_json (ret not_json).

(** The file opens, the multipart body is not empty and the transport reads
    it in chunks of non-negative sizes. *)
Definition upload_goes_through (env : Env) (self : Client.t) (filepath : Path) (w : World)
  : Prop :=
  open_error env filepath = None
  /\ 0 < multipart_len env (Client.push_file_fields filepath (next_fd w))
  /\ Forall (fun size => 0 <= size)
       (chunks (http_exchange env (upload_request env self filepath (next_fd w)))).

(** What the storage answers to the upload, once parsed. *)
Definition storage_answer (env : Env) (self : Client.t) (filepath : Path) (w : World)
  : outcome pyval :=
  parsed_exchange (http_exchange env (upload_request env self filepath (next_fd w))).

(** A browser that cannot be opened. *)
Definition no_browser (url : string) (new : Z) : M bool := ret false.

(** Answers whose [successful] is not a boolean, and an answer that is not a
    mapping. *)
Definition accepted_loosely : pyval :=
  PDict [("successful", PInt 1); ("upload_id", PInt 7)].

Definition rejected_loosely : pyval :=
  PDict [("successful", PNone); ("upload_id", PStr "abc123")].

Definition env_accepting_loosely : Env :=
  sample_env [("HOME", "/home/user")] (answer_of 200 (Ok accepted_loosely)) (ret not_json).

Definition env_rejecting_loosely : Env :=
  sample_env [("HOME", "/home/user")] (answer_of 200 (Ok rejected_loosely)) (ret not_json).

Definition env_answering_list : Env :=
  sample_env [("HOME", "/home/user")] (answer_of 200 (Ok (PList [PStr "abc123"])))
    (ret not_json).

(** A session that answers with JSON, and one whose parser fails otherwise. *)
Definition env_session_ok : Env :=
  sample_env [("HOME", "/home/user")] (answer_of 200 (Ok accepted))
    (ret (answer_of 200 (Ok accepted))).

Definition env_session_undecodable : Env :=
  sample_env [("HOME", "/home/user")] (answer_of 200 (Ok accepted))
    (ret (answer_of 200 (Raise (OtherError "UnicodeDecodeError" "invalid start byte")))).

Definition env_session_down : Env :=
  sample_env [("HOME", "/home/user")] (answer_of 200 (Ok accepted))
    (raise (OtherError "ConnectionError" "name resolution failed")).

(** The monitor before the first read. *)
Definition monitor_start : MonitorState := {| encoder := sample_encoder; bytes_read := 0 |}.

(** The number of bytes read after reads of the given sizes. *)
Definition total_read (sizes : list Z) : Z := fold_right Z.add 0 sizes.

(** ** Strings: lemmas *)

Lemma string_app_assoc (a b c : string) : (a ++ b) ++ c = a ++ b ++ c.
Proof.
  induction a as [| x a IH]; simpl; [reflexivity | now rewrite IH].
Qed.

Lemma contains_middle (pre sub post : string) : contains sub (pre ++ sub ++ post).
Proof. exists pre, post. reflexivity. Qed.

Lemma contains_suffix (pre sub : string) : contains sub (pre ++ sub).
Proof.
  exists pre, EmptyString.
  induction sub as [| x sub IH]; simpl; [reflexivity |].
  f_equal. clear IH. f_equal.
  induction sub as [| y sub IH]; simpl; [reflexivity | now rewrite <- IH].
Qed.

Lemma app_single_inv (pre : string) (c d : ascii) (s : string) :
  String d s = pre ++ String c EmptyString ->
  (s = EmptyString /\ pre = EmptyString /\ d = c)
  \/ exists pre', pre = String d pre' /\ s = pre' ++ String c EmptyString.
Proof.
  destruct pre as [| x pre]; simpl; intros H.
  - left. inversion H. auto.
  - right. inversion H. subst. exists pre. auto.
Qed.

Lemma rstrip_slash_decompose (s : string) :
  exists n, s = rstrip "/" s ++ repeat_char "/"%char n.
Proof.
  induction s as [| c rest [n IH]].
  - exists O. reflexivity.
  - simpl rstrip. destruct (rstrip "/" rest) as [| d kept] eqn:E.
    + simpl in IH. simpl char_in.
      destruct (Ascii.eqb_spec c "/"%char) as [-> | Hc]; simpl.
      * exists (S n). simpl. now rewrite <- IH.
      * exists n. now rewrite <- IH.
    + exists n. simpl in *. now rewrite <- IH.
Qed.

Lemma rstrip_slash_no_trailing (s : string) : ~ ends_with_char "/"%char (rstrip "/" s).
Proof.
  induction s as [| c rest IH]; intros [pre H].
  - destruct pre; discriminate H.
  - simpl rstrip in H. destruct (rstrip "/" rest) as [| d kept] eqn:E.
    + simpl char_in in H.
      destruct (Ascii.eqb_spec c "/"%char) as [-> | Hc]; simpl in H.
      * destruct pre; discriminate H.
      * apply app_single_inv in H. destruct H as [(_ & _ & H) | (pre' & _ & H)].
        -- congruence.
        -- destruct pre'; discriminate H.
    + apply app_single_inv in H. destruct H as [(H & _) | (pre' & _ & H)].
      * discriminate H.
      * apply IH. exists pre'. exact H.
Qed.

(** ** The user agent: lemmas *)

Lemma testing_environment_spec (env : Env) :
  testing_environment env = true <-> has_testing_key env.
Proof.
  unfold testing_environment, has_testing_key. rewrite existsb_exists. split.
  - intros (pre & Hpre & H). apply existsb_exists in H. destruct H as (key & Hkey & H).
    exists key, pre. auto.
  - intros (key & pre & Hkey & Hpre & H). exists pre. split; [exact Hpre |].
    apply existsb_exists. exists key. auto.
Qed.

(** ** The monad: lemmas *)

Lemma keeps_ret {T A} (proj : World -> T) (x : A) : keeps proj (ret x).
Proof. intros w. reflexivity. Qed.

Lemma keeps_raise {T A} (proj : World -> T) (e : exn) : keeps proj (@raise A e).
Proof. intros w. reflexivity. Qed.

Lemma keeps_lift {T A} (proj : World -> T) (o : outcome A) : keeps proj (lift o).
Proof. intros w. reflexivity. Qed.

Lemma keeps_bind {T A B} (proj : World -> T) (c : M A) (k : A -> M B) :
  keeps proj c -> (forall x, keeps proj (k x)) -> keeps proj (bind c k).
Proof.
  intros Hc Hk w. unfold bind. specialize (Hc w).
  destruct (c w) as [[x | e] w1]; simpl in *.
  - now rewrite Hk.
  - exact Hc.
Qed.

Lemma bind_then_keeps {T A B} (proj : World -> T) (c : M A) (k : A -> M B) (w : World) :
  (forall x, keeps proj (k x)) -> proj (snd (bind c k w)) = proj (snd (c w)).
Proof.
  intros Hk. unfold bind. destruct (c w) as [[x | e] w1]; simpl.
  - apply Hk.
  - reflexivity.
Qed.

Lemma keeps__progress {T} (proj : World -> T) :
  (forall text, keeps proj (print text)) -> forall m, keeps proj (_progress m).
Proof.
  intros Hprint m. unfold _progress.
  destruct (bytes_read m <=? monitor_len m).
  - apply keeps_bind; [apply keeps_lift | intros x; apply Hprint].
  - apply keeps_ret.
Qed.

Lemma keeps_read_all {T} (proj : World -> T) (cb : MonitorState -> M unit) :
  (forall m, keeps proj (cb m)) -> forall sizes m, keeps proj (read_all cb m sizes).
Proof.
  intros Hcb sizes. induction sizes as [| size rest IH]; intros m; simpl.
  - apply keeps_ret.
  - apply keeps_bind; [apply Hcb | intros _; apply IH].
Qed.

Lemma print_keeps_files (text : string) : keeps open_files (print text).
Proof. intros w. reflexivity. Qed.

Lemma print_keeps_requests (text : string) : keeps requests (print text).
Proof. intros w. reflexivity. Qed.

Lemma logger_debug_keeps_files (message : string) : keeps open_files (logger_debug message).
Proof. intros w. reflexivity. Qed.

Lemma logger_debug_keeps_requests (message : string) : keeps requests (logger_debug message).
Proof. intros w. reflexivity. Qed.

Lemma send_keeps_files (r : HttpRequest) : keeps open_files (send r).
Proof. intros w. reflexivity. Qed.

Lemma file_close_keeps_requests (fh : nat) : keeps requests (file_close fh).
Proof. intros w. reflexivity. Qed.

Lemma storage_push_keeps_files (env : Env) (mon : MultipartEncoderMonitor) (url : string) :
  (forall m, keeps open_files (callback mon m)) -> keeps open_files (_storage_push env mon url).
Proof.
  intros Hcb. unfold _storage_push, HTTPClient_post.
  apply keeps_bind; [| intros r; apply keeps_lift].
  apply keeps_bind; [apply send_keeps_files | intros _].
  apply keeps_bind; [apply keeps_read_all; exact Hcb | intros _; apply keeps_lift].
Qed.

Lemma storage_push_requests (env : Env) (mon : MultipartEncoderMonitor) (url : string)
    (w : World) :
  (forall m, keeps requests (callback mon m)) ->
  requests (snd (_storage_push env mon url w))
  = (requests w
      ++ [{| req_method := "POST";
             req_url := url ++ "/unscanned-upload/";
             req_headers := [("Content-Type", monitor_content_type mon);
                             ("Accept", "application/json")];
             req_user_agent := build_user_agent env;
             req_data := encoder (monitor_state mon) |}])%list.
Proof.
  intros Hcb. unfold _storage_push, HTTPClient_post.
  rewrite bind_then_keeps by (intros r; apply keeps_lift).
  rewrite bind_then_keeps.
  - reflexivity.
  - intros _. apply keeps_bind; [apply keeps_read_all; exact Hcb | intros _; apply keeps_lift].
Qed.

(** Leaving the [with] block closes the file that entering it opened. *)
Lemma with_file_restores {A} (env : Env) (filepath : Path) (body : nat -> M A) (w : World) :
  (forall fh, keeps open_files (body fh)) ->
  handles_allocated w ->
  open_files (snd (with_file (path_open env filepath) body w)) = open_files w.
Proof.
  intros Hbody Hw. unfold with_file, path_open.
  destruct (open_error env filepath) as [e |]; [reflexivity |].
  match goal with |- context [body ?fh ?w1] =>
    pose proof (Hbody fh w1) as H; destruct (body fh w1) as [result w2] end.
  simpl in *. rewrite H. simpl.
  destruct (Nat.eq_dec (next_fd w) (next_fd w)) as [_ | Hne]; [| congruence].
  apply notin_remove. intros Hin. apply Hw in Hin. lia.
Qed.

Lemma path_open_opens (env : Env) (filepath : Path) (w : World) :
  open_error env filepath = None ->
  fst (path_open env filepath w) = Ok (next_fd w)
  /\ In (next_fd w) (open_files (snd (path_open env filepath w))).
Proof.
  intros H. unfold path_open. rewrite H. simpl. auto.
Qed.

(** What [push_file] does once the response is there leaves files and
    requests alone. *)
Lemma push_file_after_response {T} (proj : World -> T) (env : Env) (self : Client.t)
    (filepath : Path) (w : World) :
  (forall message, keeps proj (logger_debug message)) ->
  proj (snd (Client.push_file env self filepath w))
  = proj (snd (Client.push_file_response env self filepath w)).
Proof.
  intros Hlog. unfold Client.push_file. apply bind_then_keeps. intros result.
  apply keeps_bind; [apply keeps_lift | intros successful].
  destruct (negb (truthy successful)).
  - apply keeps_raise.
  - apply keeps_bind; [apply keeps_lift | intros upload_id].
    apply keeps_bind; [apply Hlog | intros _; apply keeps_ret].
Qed.

(** ** Floats: lemmas *)

Lemma digits2_pos_size (p : positive) : digits2_pos p = Pos.size p.
Proof. induction p; simpl; congruence. Qed.

Lemma size_bounds (p : positive) :
  2 ^ Zpos (Pos.size p) <= 2 * Zpos p /\ Zpos p < 2 ^ Zpos (Pos.size p).
Proof.
  split.
  - pose proof (Pos.size_le p) as H.
    apply Pos2Z.pos_le_pos in H. rewrite Pos2Z.inj_pow in H. exact H.
  - pose proof (Pos.size_gt p) as H.
    apply Pos2Z.pos_lt_pos in H. rewrite Pos2Z.inj_pow in H. exact H.
Qed.

(** Multiplying by 100 adds six or seven binary digits. *)
Lemma digits_times_100 (p : positive) :
  Zpos (digits2_pos (100 * p)) = Zpos (digits2_pos p) + 6 \/
  Zpos (digits2_pos (100 * p)) = Zpos (digits2_pos p) + 7.
Proof.
  rewrite (digits2_pos_size p), (digits2_pos_size (100 * p)).
  destruct (size_bounds p) as [Hle Hlt].
  destruct (size_bounds (100 * p)) as [Hle' Hlt'].
  rewrite Pos2Z.inj_mul in Hle', Hlt'.
  set (d := Zpos (Pos.size p)) in *.
  set (D := Zpos (Pos.size (100 * p))) in *.
  assert (0 < d) by (subst d; lia).
  assert (0 < D) by (subst D; lia).
  assert (Hup : D < d + 8).
  { apply (Z.pow_lt_mono_r_iff 2); [lia | lia |].
    rewrite Z.pow_add_r by lia. change (2 ^ 8) with 256. lia. }
  assert (Hlow : d + 5 < D).
  { apply (Z.pow_lt_mono_r_iff 2); [lia | lia |].
    rewrite Z.pow_add_r by lia. change (2 ^ 5) with 32. lia. }
  lia.
Qed.

Lemma div_eucl_exact (q p : positive) :
  Z.div_eucl (Zpos q * Zpos p) (Zpos p) = (Zpos q, 0).
Proof.
  pose proof (Z.div_mul (Zpos q) (Zpos p) ltac:(lia)) as Hd.
  pose proof (Z.mod_mul (Zpos q) (Zpos p) ltac:(lia)) as Hm.
  unfold Z.div, Z.modulo in Hd, Hm.
  destruct (Z.div_eucl (Zpos q * Zpos p) (Zpos p)) as [a b].
  simpl in Hd, Hm. congruence.
Qed.

Lemma new_location_zero (p : positive) : new_location (Zpos p) 0 = loc_Exact.
Proof.
  unfold new_location. destruct (Z.even (Zpos p)); reflexivity.
Qed.

Lemma shiftl_times_100 (p : positive) (s : positive) :
  Z.shiftl (Zpos (100 * p)) (Zpos s) = Zpos (100 * 2 ^ s) * Zpos p.
Proof.
  rewrite Z.shiftl_mul_pow2 by lia.
  rewrite !Pos2Z.inj_mul, Pos2Z.inj_pow. lia.
Qed.

(** The binary64 quotient of [100 * p] by [p] is the float 100.0, whatever
    the size of [p]. *)
Lemma SFdiv_100 (p : positive) :
  SFdiv 53 1024 (S754_finite false (100 * p) 0) (S754_finite false p 0) = float_100.
Proof.
  unfold SFdiv, SFdiv_core_binary, Zdigits2.
  destruct (digits_times_100 p) as [H | H]; rewrite H.
  - replace (Zpos (digits2_pos p) + 6 + 0 - (Zpos (digits2_pos p) + 0)) with 6 by lia.
    change (Z.min (fexp 53 1024 6) (0 - 0)) with (-47).
    change (0 - 0 - -47) with 47.
    cbv iota beta.
    rewrite shiftl_times_100, div_eucl_exact, new_location_zero.
    vm_compute. reflexivity.
  - replace (Zpos (digits2_pos p) + 7 + 0 - (Zpos (digits2_pos p) + 0)) with 7 by lia.
    change (Z.min (fexp 53 1024 7) (0 - 0)) with (-46).
    change (0 - 0 - -46) with 46.
    cbv iota beta.
    rewrite shiftl_times_100, div_eucl_exact, new_location_zero.
    vm_compute. reflexivity.
Qed.

Lemma int_truediv_100 (n : Z) : 0 < n -> int_truediv (100 * n) n = Ok float_100.
Proof.
  intros Hn. destruct n as [| p | p]; try lia.
  change (100 * Zpos p) with (Zpos (100 * p)).
  unfold int_truediv, float_of_int_exact. rewrite SFdiv_100. reflexivity.
Qed.

(** [float_100] is a binary64 number and its value is one hundred. *)
Lemma float_100_exact :
  valid_binary 53 1024 float_100 = true /\ 7036874417766400 = 100 * 2 ^ 46.
Proof. split; reflexivity. Qed.

Lemma format_2f_100 : format_2f float_100 = "100.00".
Proof. reflexivity. Qed.

(** With an empty body the callback fails on the division. *)
Lemma progress_zero_length (m : MonitorState) (w : World) :
  monitor_len m = 0 -> bytes_read m = 0 ->
  _progress m w = (Raise (ZeroDivisionError "division by zero"), w).
Proof.
  intros Hl Hb. unfold _progress. rewrite Hl, Hb. reflexivity.
Qed.

(** ** Properties of the client *)

(** Runs [push_file] up to the parsed response that [H] describes. *)
Ltac with_response H :=
  unfold Client.push_file; unfold bind at 1;
  destruct (Client.push_file_response _ _ _ _) as [? ?];
  simpl in H; subst; unfold bind, lift.

(** C1: when the parsed response of the storage is a mapping whose
    [successful] field is true and which has an [upload_id] field,
    [push_file] returns exactly the value of [upload_id]. *)
Theorem push_file_returns_upload_id (env : Env) (self : Client.t) (filepath : Path)
    (w : World) (items : list (string * pyval)) (upload_id : pyval) :
  fst (Client.push_file_response env self filepath w) = Ok (PDict items) ->
  dict_get items "successful" = Some (PBool true) ->
  dict_get items "upload_id" = Some upload_id ->
  fst (Client.push_file env self filepath w) = Ok upload_id.
Proof.
  intros Hresp Hsucc Hid. with_response Hresp.
  unfold getitem. rewrite Hsucc. simpl. rewrite Hid. reflexivity.
Qed.

(** The response [{"successful": true, "upload_id": "abc123"}] gives
    ["abc123"]. *)
Lemma push_file_returns_upload_id_witness :
  (fst (Client.push_file_response env_accepting (sample_client env_accepting)
          sample_path sample_world)
     = Ok (PDict [("successful", PBool true); ("upload_id", PStr "abc123")])
   /\ dict_get [("successful", PBool true); ("upload_id", PStr "abc123")] "successful"
      = Some (PBool true)
   /\ dict_get [("successful", PBool true); ("upload_id", PStr "abc123")] "upload_id"
      = Some (PStr "abc123"))
  /\ fst (Client.push_file env_accepting (sample_client env_accepting)
            sample_path sample_world) = Ok (PStr "abc123").
Proof.
  assert (H1 : fst (Client.push_file_response env_accepting (sample_client env_accepting)
                      sample_path sample_world)
               = Ok (PDict [("successful", PBool true); ("upload_id", PStr "abc123")]))
    by (vm_compute; reflexivity).
  split; [split; [exact H1 | split; reflexivity] |].
  apply (push_file_returns_upload_id env_accepting (sample_client env_accepting)
           sample_path sample_world
           [("successful", PBool true); ("upload_id", PStr "abc123")] (PStr "abc123"));
    [exact H1 | reflexivity | reflexivity].
Defined.

(** C2: when the [successful] field of the parsed response is false,
    [push_file] fails with a [CommandError] whose message holds the whole
    response, and returns no upload id. *)
Theorem push_file_rejected (env : Env) (self : Client.t) (filepath : Path)
    (w : World) (result : pyval) :
  fst (Client.push_file_response env self filepath w) = Ok result ->
  getitem result "successful" = Ok (PBool false) ->
  fst (Client.push_file env self filepath w)
    = Raise (CommandError ("Server error while pushing file: " ++ str result) None)
  /\ contains (str result) ("Server error while pushing file: " ++ str result)
  /\ forall upload_id, fst (Client.push_file env self filepath w) <> Ok upload_id.
Proof.
  intros Hresp Hsucc.
  assert (H : fst (Client.push_file env self filepath w)
              = Raise (CommandError ("Server error while pushing file: " ++ str result) None)).
  { with_response Hresp. rewrite Hsucc. reflexivity. }
  split; [exact H | split].
  - apply contains_suffix.
  - intros upload_id Heq. rewrite H in Heq. discriminate Heq.
Qed.

Lemma push_file_rejected_witness :
  (fst (Client.push_file_response env_rejecting (sample_client env_rejecting)
          sample_path sample_world) = Ok rejected
   /\ getitem rejected "successful" = Ok (PBool false))
  /\ fst (Client.push_file env_rejecting (sample_client env_rejecting)
            sample_path sample_world)
     = Raise (CommandError
                "Server error while pushing file: {'successful': False, 'upload_id': None}"
                None).
Proof.
  assert (H1 : fst (Client.push_file_response env_rejecting (sample_client env_rejecting)
                      sample_path sample_world) = Ok rejected)
    by (vm_compute; reflexivity).
  split; [split; [exact H1 | reflexivity] |].
  exact (proj1 (push_file_rejected env_rejecting (sample_client env_rejecting)
                  sample_path sample_world rejected H1 eq_refl)).
Defined.

(** C3: when the body of the response does not parse as JSON,
    [request_json] fails with a [CommandError] whose message holds the
    status code of that response; the error of the parser is its cause and
    is not what the caller receives. *)
Theorem request_json_malformed (env : Env) (self : Client.t) (method url : string)
    (kwargs : list (string * pyval)) (w w1 : World) (response : Response)
    (parser_message : string) :
  Client.request env self method url kwargs w = (Ok response, w1) ->
  json response = Raise (JSONDecodeError parser_message) ->
  let message :=
    "Could not retrieve json response (" ++ str_int (status_code response)
      ++ " from request" in
  Client.request_json env self method url kwargs w
    = (Raise (CommandError message (Some (JSONDecodeError parser_message))), w1)
  /\ contains (str_int (status_code response)) message
  /\ forall e, fst (Client.request_json env self method url kwargs w) = Raise e ->
               is_JSONDecodeError e = false /\ is_CommandError e = true.
Proof.
  intros Hreq Hjson message.
  assert (H : Client.request_json env self method url kwargs w
              = (Raise (CommandError message (Some (JSONDecodeError parser_message))), w1)).
  { unfold Client.request_json, bind. rewrite Hreq.
    unfold try_except, lift. rewrite Hjson. reflexivity. }
  split; [exact H | split].
  - apply contains_middle.
  - intros e He. rewrite H in He. simpl in He. inversion He. auto.
Qed.

Lemma request_json_malformed_witness :
  (Client.request env_malformed (sample_client env_malformed) "GET" "/v1/charm" []
     sample_world = (Ok not_json, sample_world)
   /\ json not_json = Raise (JSONDecodeError "Expecting value"))
  /\ Client.request_json env_malformed (sample_client env_malformed) "GET" "/v1/charm" []
       sample_world
     = (Raise (CommandError "Could not retrieve json response (502 from request"
                 (Some (JSONDecodeError "Expecting value"))), sample_world).
Proof.
  split; [split; reflexivity |].
  exact (proj1 (request_json_malformed env_malformed (sample_client env_malformed)
                  "GET" "/v1/charm" [] sample_world sample_world not_json
                  "Expecting value" eq_refl eq_refl)).
Defined.

(** C4: an error of the session that is a [StoreClientError] comes out of
    [request] as a [CommandError] whose text is the text of that error;
    an error of any other class comes out as it is. *)
Theorem request_translates_store_errors (env : Env) (self : Client.t) (method url : string)
    (kwargs : list (string * pyval)) (w w1 : World) (e : exn) :
  StoreClient_request env (Client.super self) method url kwargs w = (Raise e, w1) ->
  (is_StoreClientError e = true ->
     Client.request env self method url kwargs w
       = (Raise (CommandError (exn_str e) (Some e)), w1)
     /\ exn_str (CommandError (exn_str e) (Some e)) = exn_str e)
  /\ (is_StoreClientError e = false ->
        Client.request env self method url kwargs w = (Raise e, w1)).
Proof.
  intros Hsess. unfold Client.request, try_except. rewrite Hsess.
  split; intros Hclass; rewrite Hclass; [split |]; reflexivity.
Qed.

Lemma request_translates_store_errors_witness :
  (StoreClient_request env_logged_out (Client.super (sample_client env_logged_out))
     "GET" "/v1/whoami" [] sample_world
     = (Raise (StoreClientError "not logged in"), sample_world)
   /\ is_StoreClientError (StoreClientError "not logged in") = true)
  /\ Client.request env_logged_out (sample_client env_logged_out) "GET" "/v1/whoami" []
       sample_world
     = (Raise (CommandError "not logged in" (Some (StoreClientError "not logged in"))),
        sample_world).
Proof.
  split; [split; reflexivity |].
  exact (proj1 (proj1 (request_translates_store_errors env_logged_out
                         (sample_client env_logged_out) "GET" "/v1/whoami" []
                         sample_world sample_world (StoreClientError "not logged in")
                         eq_refl) eq_refl)).
Defined.

(** C5: in the progress callback, a read that brings [bytes_read] to the
    total length computes the float 100.0 exactly and prints it; a read that
    brings [bytes_read] past the total length prints nothing.  The total
    length of a multipart body is positive, as it always holds its boundary
    lines. *)
Theorem progress_full_and_bounded (m : MonitorState) (w : World) :
  (0 < monitor_len m -> bytes_read m = monitor_len m ->
     int_truediv (100 * bytes_read m) (monitor_len m) = Ok float_100
     /\ _progress m w = print progress_line_100 w
     /\ stdout (snd (_progress m w)) = (stdout w ++ [progress_line_100])%list)
  /\ (monitor_len m < bytes_read m -> _progress m w = (Ok tt, w)).
Proof.
  split.
  - intros Hpos Heq.
    assert (Hdiv : int_truediv (100 * bytes_read m) (monitor_len m) = Ok float_100)
      by (rewrite Heq; apply int_truediv_100; exact Hpos).
    assert (Hrun : _progress m w = print progress_line_100 w).
    { unfold _progress. rewrite Hdiv, Heq, Z.leb_refl. reflexivity. }
    repeat split; [exact Hdiv | exact Hrun | rewrite Hrun; reflexivity].
  - intros Hover. unfold _progress.
    destruct (Z.leb_spec (bytes_read m) (monitor_len m)); [lia | reflexivity].
Qed.

Lemma progress_full_and_bounded_witness :
  ((0 < monitor_len monitor_done /\ bytes_read monitor_done = monitor_len monitor_done)
   /\ stdout (snd (_progress monitor_done sample_world)) = [progress_line_100])
  /\ (monitor_len monitor_over < bytes_read monitor_over
      /\ _progress monitor_over sample_world = (Ok tt, sample_world)).
Proof.
  split.
  - split; [split; [reflexivity | reflexivity] |].
    exact (proj2 (proj2 (proj1 (progress_full_and_bounded monitor_done sample_world)
                          eq_refl eq_refl))).
  - split; [reflexivity |].
    exact (proj2 (progress_full_and_bounded monitor_over sample_world) eq_refl).
Defined.

(** C6: when some key of the environment starts with one of the recognised
    prefixes, the user agent holds [" (testing) "] between the version and
    the platform; otherwise it holds a single space there. *)
Theorem build_user_agent_testing_marker (env : Env) :
  (has_testing_key env ->
     build_user_agent env
       = "charmcraft/" ++ __version__ env ++ " (testing) "
           ++ os_platform_string (get_os_platform env)
           ++ " python/" ++ python_version env
     /\ contains " (testing) " (build_user_agent env))
  /\ (~ has_testing_key env ->
        build_user_agent env
          = "charmcraft/" ++ __version__ env ++ " "
              ++ os_platform_string (get_os_platform env)
              ++ " python/" ++ python_version env).
Proof.
  unfold build_user_agent. split; intros H.
  - apply testing_environment_spec in H. rewrite H. split; [reflexivity |].
    exists ("charmcraft/" ++ __version__ env),
           (os_platform_string (get_os_platform env) ++ " python/" ++ python_version env).
    now rewrite string_app_assoc.
  - destruct (testing_environment env) eqn:E; [| reflexivity].
    apply testing_environment_spec in E. contradiction.
Qed.

Lemma build_user_agent_testing_marker_witness :
  (has_testing_key env_testing
   /\ build_user_agent env_testing
      = "charmcraft/1.5.0 (testing) ubuntu/20.04 (x86_64) python/3.8.10")
  /\ (~ has_testing_key env_accepting
      /\ build_user_agent env_accepting
         = "charmcraft/1.5.0 ubuntu/20.04 (x86_64) python/3.8.10").
Proof.
  assert (Hyes : has_testing_key env_testing).
  { exists "TRAVIS_BUILD_ID", "TRAVIS". simpl. auto. }
  assert (Hno : ~ has_testing_key env_accepting).
  { intros H. apply testing_environment_spec in H. vm_compute in H. discriminate H. }
  split; split; [exact Hyes | | exact Hno |].
  - exact (proj1 (proj1 (build_user_agent_testing_marker env_testing) Hyes)).
  - exact (proj2 (build_user_agent_testing_marker env_accepting) Hno).
Defined.

(** C7: whatever the outcome of [push_file] (the upload id, the rejection by
    the server, an exception while the body is read or exchanged), the file
    it opened is closed when it returns: the open handles are those of
    before the call. *)
Theorem push_file_closes_file (env : Env) (self : Client.t) (filepath : Path) (w : World) :
  handles_allocated w ->
  open_files (snd (Client.push_file env self filepath w)) = open_files w
  /\ ~ In (next_fd w) (open_files (snd (Client.push_file env self filepath w))).
Proof.
  intros Hw.
  assert (H : open_files (snd (Client.push_file env self filepath w)) = open_files w).
  { rewrite push_file_after_response by apply logger_debug_keeps_files.
    unfold Client.push_file_response, bind, logger_debug.
    rewrite with_file_restores; [reflexivity | | exact Hw].
    intros fh. apply storage_push_keeps_files. intros m.
    apply keeps__progress, print_keeps_files. }
  split; [exact H |].
  rewrite H. intros Hin. apply Hw in Hin. lia.
Qed.

Lemma sample_world_allocated : handles_allocated sample_world.
Proof.
  intros fh H. simpl in *. lia.
Defined.

Lemma push_file_closes_file_witness :
  handles_allocated sample_world
  /\ open_files (snd (Client.push_file env_rejecting (sample_client env_rejecting)
                        sample_path sample_world)) = [0%nat; 1%nat; 2%nat].
Proof.
  split; [exact sample_world_allocated |].
  exact (proj1 (push_file_closes_file env_rejecting (sample_client env_rejecting)
                  sample_path sample_world sample_world_allocated)).
Defined.

(** C8: [push_file] sends one request to the storage: a POST of the
    multipart body to [storage_base_url + "/unscanned-upload/"], with the
    content type of the encoder, [Accept: application/json] and the user
    agent of [build_user_agent]; the response of that request is parsed as
    JSON. *)
Theorem push_file_single_post (env : Env) (self : Client.t) (filepath : Path) (w : World) :
  open_error env filepath = None ->
  requests (snd (Client.push_file env self filepath w))
    = (requests w ++ [upload_request env self filepath (next_fd w)])%list
  /\ forall mon w0 w1 response,
       HTTPClient_post env {| client_user_agent := build_user_agent env |}
         (Client.storage_base_url self ++ "/unscanned-upload/")
         [("Content-Type", monitor_content_type mon); ("Accept", "application/json")]
         mon w0 = (Ok response, w1) ->
       _storage_push env mon (Client.storage_base_url self) w0 = (json response, w1).
Proof.
  intros Hopen. split.
  - rewrite push_file_after_response by apply logger_debug_keeps_requests.
    unfold Client.push_file_response, bind, logger_debug, with_file, path_open.
    rewrite Hopen. cbv beta iota.
    match goal with |- context [_storage_push env ?mon ?url ?w1] =>
      pose proof (storage_push_requests env mon url w1) as H;
      destruct (_storage_push env mon url w1) as [result w2] end.
    simpl in *. apply H. intros m. apply keeps__progress, print_keeps_requests.
  - intros mon w0 w1 response Hpost.
    unfold _storage_push, bind. rewrite Hpost. reflexivity.
Qed.

Lemma push_file_single_post_witness :
  open_error env_accepting sample_path = None
  /\ requests (snd (Client.push_file env_accepting (sample_client env_accepting)
                      sample_path sample_world))
     = [{| req_method := "POST";
           req_url := "https://storage.example.com/unscanned-upload/";
           req_headers := [("Content-Type", "multipart/form-data; boundary=0a1b2c");
                           ("Accept", "application/json")];
           req_user_agent := "charmcraft/1.5.0 ubuntu/20.04 (x86_64) python/3.8.10";
           req_data :=
             {| fields := [{| field_name := "binary";
                              file_name := "mycharm.charm";
                              file_handle := 3;
                              file_content_type := "application/octet-stream" |}];
                content_type := "multipart/form-data; boundary=0a1b2c";
                len := 300 |} |}].
Proof.
  split; [reflexivity |].
  exact (proj1 (push_file_single_post env_accepting (sample_client env_accepting)
                  sample_path sample_world eq_refl)).
Defined.

(** C9: the constructor strips the trailing slashes of both URLs: the
    storage URL it stores and the base URL it hands to the session are the
    inputs without their final run of ['/'], and do not end with ['/']. *)
Theorem client_init_strips_slashes (env : Env) (api_base_url storage_base_url : string) :
  ((exists n, storage_base_url
              = Client.storage_base_url (Client.__init__ env api_base_url storage_base_url)
                  ++ repeat_char "/"%char n)
   /\ ~ ends_with_char "/"%char
          (Client.storage_base_url (Client.__init__ env api_base_url storage_base_url)))
  /\ ((exists n, api_base_url
                 = base_url (Client.super (Client.__init__ env api_base_url storage_base_url))
                     ++ repeat_char "/"%char n)
      /\ ~ ends_with_char "/"%char
             (base_url (Client.super (Client.__init__ env api_base_url storage_base_url)))).
Proof.
  simpl. split; split;
    solve [apply rstrip_slash_decompose | apply rstrip_slash_no_trailing].
Qed.

(** C10: when the parsed response is a mapping without the key
    [successful], or with a true [successful] and without the key
    [upload_id], [push_file] fails with the [KeyError] of the lookup, which
    is not a [CommandError]. *)
Theorem push_file_missing_key (env : Env) (self : Client.t) (filepath : Path)
    (w : World) (items : list (string * pyval)) :
  fst (Client.push_file_response env self filepath w) = Ok (PDict items) ->
  (dict_get items "successful" = None ->
     fst (Client.push_file env self filepath w) = Raise (KeyError "successful"))
  /\ (dict_get items "successful" = Some (PBool true) ->
      dict_get items "upload_id" = None ->
        fst (Client.push_file env self filepath w) = Raise (KeyError "upload_id"))
  /\ forall key, is_CommandError (KeyError key) = false.
Proof.
  intros Hresp. split; [| split].
  - intros Hnone. with_response Hresp. unfold getitem. rewrite Hnone. reflexivity.
  - intros Hsucc Hnone. with_response Hresp. unfold getitem.
    rewrite Hsucc. simpl. rewrite Hnone. reflexivity.
  - reflexivity.
Qed.

Lemma push_file_missing_key_witness :
  (fst (Client.push_file_response env_incomplete (sample_client env_incomplete)
          sample_path sample_world) = Ok (PDict [("successful", PBool true)])
   /\ dict_get [("successful", PBool true)] "successful" = Some (PBool true)
   /\ dict_get [("successful", PBool true)] "upload_id" = None)
  /\ fst (Client.push_file env_incomplete (sample_client env_incomplete)
            sample_path sample_world) = Raise (KeyError "upload_id").
Proof.
  assert (H1 : fst (Client.push_file_response env_incomplete (sample_client env_incomplete)
                      sample_path sample_world) = Ok (PDict [("successful", PBool true)]))
    by (vm_compute; reflexivity).
  split; [split; [exact H1 | split; reflexivity] |].
  exact (proj1 (proj2 (push_file_missing_key env_incomplete (sample_client env_incomplete)
                         sample_path sample_world [("successful", PBool true)] H1))
           eq_refl eq_refl).
Defined.

(** ** Floats: the quotient stays finite *)

Lemma Zdigits2_le (m k : Z) : 0 <= m -> 0 <= k -> m < 2 ^ k -> Zdigits2 m <= k.
Proof.
  intros Hm Hk Hlt. destruct m as [| p | p]; simpl; try lia.
  rewrite digits2_pos_size. destruct (size_bounds p) as [Hle _].
  assert (Zpos (Pos.size p) < k + 1); [| lia].
  apply (Z.pow_lt_mono_r_iff 2); [lia | lia |].
  rewrite Z.pow_add_r by lia. lia.
Qed.

Lemma shr_1_m (mrs : shr_record) :
  0 <= shr_m mrs -> shr_m (shr_1 mrs) = Z.div2 (shr_m mrs).
Proof.
  destruct mrs as [m r s]. simpl. intros Hm.
  destruct m as [| [p | p |] | p]; simpl; try reflexivity; lia.
Qed.

Lemma iter_shr_1_m (p : positive) :
  forall mrs, 0 <= shr_m mrs ->
    shr_m (iter_pos shr_1 p mrs) = Z.shiftr (shr_m mrs) (Zpos p).
Proof.
  assert (Hstep : forall mrs, 0 <= shr_m mrs ->
            shr_m (shr_1 mrs) = Z.shiftr (shr_m mrs) 1 /\ 0 <= shr_m (shr_1 mrs)).
  { intros mrs H. rewrite shr_1_m by exact H. rewrite Z.div2_spec.
    split; [reflexivity | apply Z.shiftr_nonneg; exact H]. }
  induction p as [p IH | p IH |]; intros mrs Hm; simpl.
  - destruct (Hstep mrs Hm) as [E1 N1].
    rewrite IH; [rewrite IH by exact N1 |
                 rewrite IH by exact N1; apply Z.shiftr_nonneg; lia].
    rewrite E1, !Z.shiftr_shiftr by lia. f_equal. lia.
  - rewrite IH; [rewrite IH by exact Hm | rewrite IH by exact Hm; apply Z.shiftr_nonneg; lia].
    rewrite Z.shiftr_shiftr by lia. f_equal. lia.
  - apply Hstep. exact Hm.
Qed.

Lemma shr_record_of_loc_m (m : Z) (l : location) : shr_m (shr_record_of_loc m l) = m.
Proof. destruct l as [| []]; reflexivity. Qed.

(** The exponent after the shift of the rounding, and the mantissa. *)
Lemma shr_fexp_spec (m e : Z) (l : location) :
  0 <= m ->
  snd (shr_fexp 53 1024 m e l) = Z.max e (fexp 53 1024 (Zdigits2 m + e))
  /\ shr_m (fst (shr_fexp 53 1024 m e l))
     = Z.shiftr m (Z.max e (fexp 53 1024 (Zdigits2 m + e)) - e).
Proof.
  intros Hm. unfold shr_fexp, shr.
  destruct (fexp 53 1024 (Zdigits2 m + e) - e) as [| n | n] eqn:En; simpl.
  - rewrite shr_record_of_loc_m. replace (Z.max e _ - e) with 0 by lia.
    split; [lia | now rewrite Z.shiftr_0_r].
  - rewrite iter_shr_1_m by (rewrite shr_record_of_loc_m; exact Hm).
    rewrite shr_record_of_loc_m. replace (Z.max e _ - e) with (Zpos n) by lia.
    split; [lia | reflexivity].
  - rewrite shr_record_of_loc_m. replace (Z.max e _ - e) with 0 by lia.
    split; [lia | now rewrite Z.shiftr_0_r].
Qed.

Lemma round_nearest_even_bounds (m : Z) (l : location) :
  m <= round_nearest_even m l <= m + 1.
Proof.
  destruct l as [| []]; simpl; try lia. destruct (Z.even m); lia.
Qed.

Lemma fexp_le (x : Z) : x <= 1024 -> fexp 53 1024 x <= 971.
Proof. unfold fexp, emin. lia. Qed.

(** Rounding a value below [2 ^ 1023] never gives an infinity. *)
Lemma binary_round_aux_finite (sx : bool) (mx ex : Z) (lx : location) :
  0 <= mx -> ex <= 971 -> mx < 2 ^ (1023 - ex) ->
  forall s, binary_round_aux 53 1024 sx mx ex lx <> S754_infinity s.
Proof.
  intros Hm He Hlt s. unfold binary_round_aux.
  destruct (shr_fexp_spec mx ex lx Hm) as [He1 Hm1].
  destruct (shr_fexp 53 1024 mx ex lx) as [mrs1 e1]. simpl in He1, Hm1.
  assert (Hd : Zdigits2 mx <= 1023 - ex) by (apply Zdigits2_le; lia).
  assert (He1' : ex <= e1 <= 971).
  { rewrite He1. pose proof (fexp_le (Zdigits2 mx + ex)). lia. }
  assert (Hm1' : 0 <= shr_m mrs1 < 2 ^ (1023 - e1)).
  { rewrite Hm1, <- He1. rewrite Z.shiftr_div_pow2 by lia. split.
    - apply Z.div_pos; [lia | apply Z.pow_pos_nonneg; lia].
    - apply Z.div_lt_upper_bound; [apply Z.pow_pos_nonneg; lia |].
      rewrite <- Z.pow_add_r by lia. replace (e1 - ex + (1023 - e1)) with (1023 - ex) by lia.
      exact Hlt. }
  set (m2 := round_nearest_even (shr_m mrs1) (loc_of_shr_record mrs1)).
  pose proof (round_nearest_even_bounds (shr_m mrs1) (loc_of_shr_record mrs1)) as Hr.
  fold m2 in Hr.
  assert (Hm2 : 0 <= m2) by lia.
  destruct (shr_fexp_spec m2 e1 loc_Exact Hm2) as [He2 _].
  destruct (shr_fexp 53 1024 m2 e1 loc_Exact) as [mrs2 e2]. simpl in He2.
  assert (Hd2 : Zdigits2 m2 <= 1024 - e1).
  { apply Zdigits2_le; [lia | lia |].
    replace (1024 - e1) with (1 + (1023 - e1)) by lia.
    rewrite Z.pow_add_r by lia. change (2 ^ 1) with 2. lia. }
  assert (He2' : e2 <= 971).
  { rewrite He2. pose proof (fexp_le (Zdigits2 m2 + e1)). lia. }
  destruct (shr_m mrs2) as [| p | p]; try discriminate.
  change (1024 - 53) with 971.
  destruct (Z.leb_spec e2 971); [discriminate | lia].
Qed.

(** The quotient of two positive integers, the first at most a hundred
    times the second, is a finite float. *)
Lemma SFdiv_finite (a b : positive) (s : bool) :
  Zpos a <= 100 * Zpos b ->
  SFdiv 53 1024 (S754_finite false a 0) (S754_finite false b 0) <> S754_infinity s.
Proof.
  intros Hab. unfold SFdiv, SFdiv_core_binary.
  set (e' := Z.min (fexp 53 1024 (Zdigits2 (Zpos a) + 0 - (Zdigits2 (Zpos b) + 0))) (0 - 0)).
  assert (He : e' <= 0) by (subst e'; lia).
  set (m' := match 0 - 0 - e' with
             | Zpos _ => Z.shiftl (Zpos a) (0 - 0 - e')
             | Z0 => Zpos a
             | Zneg _ => 0
             end).
  assert (Hm' : m' = Zpos a * 2 ^ (- e')).
  { subst m'. replace (0 - 0 - e') with (- e') by lia.
    destruct (- e') as [| n | n] eqn:En; try lia.
    now rewrite Z.shiftl_mul_pow2 by lia. }
  assert (Hpow : 0 < 2 ^ (- e')) by (apply Z.pow_pos_nonneg; lia).
  assert (Hq : 0 <= m' / Zpos b <= 100 * 2 ^ (- e')).
  { split.
    - apply Z.div_pos; lia.
    - apply Z.div_le_upper_bound; [lia |]. rewrite Hm'. nia. }
  unfold Z.div in Hq.
  destruct (Z.div_eucl m' (Zpos b)) as [q r]. cbv beta iota in Hq.
  apply binary_round_aux_finite; [lia | lia |].
  replace (1023 - e') with (- e' + 1023) by lia.
  rewrite Z.pow_add_r by lia.
  assert (Hbig : 100 < 2 ^ 1023) by (apply Z.log2_lt_pow2; [lia | reflexivity]).
  apply Z.le_lt_trans with (100 * 2 ^ (- e')); [lia |].
  rewrite (Z.mul_comm 100). apply Z.mul_lt_mono_pos_l; assumption.
Qed.

(** The division of the callback succeeds for every read within a
    non-empty body. *)
Lemma int_truediv_progress_ok (b l : Z) :
  0 < l -> 0 <= b <= l -> exists q, int_truediv (100 * b) l = Ok q.
Proof.
  intros Hl Hb. destruct l as [| pl | pl]; try lia.
  unfold int_truediv.
  destruct b as [| pb | pb]; try lia.
  - simpl. eexists. reflexivity.
  - change (100 * Zpos pb) with (Zpos (100 * pb)). unfold float_of_int_exact.
    pose proof (fun s => SFdiv_finite (100 * pb) pl s) as Hfin.
    destruct (SFdiv 53 1024 (S754_finite false (100 * pb) 0) (S754_finite false pl 0))
      eqn:E; try (eexists; reflexivity).
    exfalso. apply (Hfin s); [| reflexivity]. lia.
Qed.

(** ** The progress callback: lemmas *)

(** The callback prints nothing, or one progress text and then succeeds, or
    fails on the division without printing. *)
Lemma progress_cases (m : MonitorState) (w : World) :
  _progress m w = (Ok tt, w)
  \/ (exists q, int_truediv (100 * bytes_read m) (monitor_len m) = Ok q
                /\ bytes_read m <= monitor_len m
                /\ _progress m w = print (progress_text q) w)
  \/ (exists e, _progress m w = (Raise e, w)).
Proof.
  unfold _progress.
  destruct (Z.leb_spec (bytes_read m) (monitor_len m)) as [Hle | Hgt].
  - right. destruct (int_truediv (100 * bytes_read m) (monitor_len m)) as [q | e] eqn:E.
    + left. exists q. auto.
    + right. exists e. reflexivity.
  - left. reflexivity.
Qed.

Lemma progress_succeeds (m : MonitorState) (w : World) :
  0 < monitor_len m -> 0 <= bytes_read m -> fst (_progress m w) = Ok tt.
Proof.
  intros Hl Hb. unfold _progress.
  destruct (Z.leb_spec (bytes_read m) (monitor_len m)) as [Hle | Hgt]; [| reflexivity].
  destruct (int_truediv_progress_ok (bytes_read m) (monitor_len m) Hl) as [q Hq]; [lia |].
  rewrite Hq. reflexivity.
Qed.

(** Whatever the reads are, they print progress texts only, at most one per
    read. *)
Lemma read_all_prints (sizes : list Z) :
  forall (m : MonitorState) (w : World),
    exists outs,
      stdout (snd (read_all _progress m sizes w)) = (stdout w ++ outs)%list
      /\ Forall (progress_of (monitor_len m)) outs
      /\ (length outs <= length sizes)%nat.
Proof.
  induction sizes as [| size rest IH]; intros m w.
  - exists []. simpl. rewrite app_nil_r. auto.
  - set (m1 := {| encoder := encoder m; bytes_read := bytes_read m + size |}).
    simpl read_all. fold m1. unfold bind.
    destruct (progress_cases m1 w) as [Hrun | [(q & Hq & Hle & Hrun) | (e & Hrun)]];
      rewrite Hrun.
    + destruct (IH m1 w) as (outs & H2 & H3 & H4).
      exists outs. simpl. repeat split; auto.
    + unfold print. cbv beta iota.
      match goal with |- context [read_all _progress m1 rest ?w1] =>
        destruct (IH m1 w1) as (outs & H2 & H3 & H4) end.
      exists (progress_text q :: outs). simpl in *.
      repeat split.
      * rewrite H2, <- app_assoc. reflexivity.
      * constructor; [| exact H3]. exists (bytes_read m + size), q. auto.
      * lia.
    + exists []. simpl. rewrite app_nil_r. repeat split; [constructor | lia].
Qed.

(** The reads of a non-empty body, none of a negative size, all succeed. *)
Lemma read_all_succeeds (sizes : list Z) :
  forall (m : MonitorState) (w : World),
    0 < monitor_len m -> 0 <= bytes_read m -> Forall (fun size => 0 <= size) sizes ->
    exists m', fst (read_all _progress m sizes w) = Ok m'.
Proof.
  induction sizes as [| size rest IH]; intros m w Hl Hb Hs.
  - exists m. reflexivity.
  - inversion Hs as [| ? ? Hsize Hrest]; subst.
    set (m1 := {| encoder := encoder m; bytes_read := bytes_read m + size |}).
    assert (Hl1 : 0 < monitor_len m1) by exact Hl.
    assert (Hb1 : 0 <= bytes_read m1) by (simpl; lia).
    simpl read_all. fold m1. unfold bind.
    pose proof (progress_succeeds m1 w Hl1 Hb1) as Hrun.
    destruct (_progress m1 w) as [[[] | e] w1]; simpl in Hrun; [| discriminate Hrun].
    apply IH; assumption.
Qed.

(** ** The upload: lemmas *)

Lemma print_keeps_log (text : string) : keeps log (print text).
Proof. intros w. reflexivity. Qed.

Lemma send_keeps_log (r : HttpRequest) : keeps log (send r).
Proof. intros w. reflexivity. Qed.

Lemma send_keeps_stdout (r : HttpRequest) : keeps stdout (send r).
Proof. intros w. reflexivity. Qed.

Lemma logger_debug_keeps_stdout (message : string) : keeps stdout (logger_debug message).
Proof. intros w. reflexivity. Qed.

Lemma print_keeps_next_fd (text : string) : keeps next_fd (print text).
Proof. intros w. reflexivity. Qed.

Lemma send_keeps_next_fd (r : HttpRequest) : keeps next_fd (send r).
Proof. intros w. reflexivity. Qed.

Lemma logger_debug_keeps_next_fd (message : string) : keeps next_fd (logger_debug message).
Proof. intros w. reflexivity. Qed.

(** The POST of [_storage_push], step by step. *)
Lemma storage_push_run (env : Env) (mon : MultipartEncoderMonitor) (url : string) (w : World) :
  let r := {| req_method := "POST";
              req_url := url ++ "/unscanned-upload/";
              req_headers := [("Content-Type", monitor_content_type mon);
                              ("Accept", "application/json")];
              req_user_agent := build_user_agent env;
              req_data := encoder (monitor_state mon) |} in
  let reads := read_all (callback mon) (monitor_state mon) (chunks (http_exchange env r))
                 (snd (send r w)) in
  snd (_storage_push env mon url w) = snd reads
  /\ fst (_storage_push env mon url w)
     = match fst reads with
       | Ok _ => parsed_exchange (http_exchange env r)
       | Raise e => Raise e
       end.
Proof.
  intros r reads. subst reads r.
  unfold _storage_push, HTTPClient_post.
  cbv beta iota zeta delta [bind send lift parsed_exchange fst snd client_user_agent].
  match goal with |- context [read_all ?cb ?m ?sz ?w1] =>
    destruct (read_all cb m sz w1) as [[m' | e] w2] end.
  - match goal with |- context [exchange ?t] =>
      destruct (exchange t) as [response | e] end; auto.
  - auto.
Qed.

(** [push_file] up to the end of the [with] block, when the file opens. *)
Lemma push_file_response_run (env : Env) (self : Client.t) (filepath : Path) (w : World) :
  open_error env filepath = None ->
  let r := upload_request env self filepath (next_fd w) in
  let reads :=
    read_all _progress
      {| encoder := new_MultipartEncoder env (Client.push_file_fields filepath (next_fd w));
         bytes_read := 0 |}
      (chunks (http_exchange env r))
      {| open_files := next_fd w :: open_files w;
         next_fd := S (next_fd w);
         stdout := stdout w;
         log := log w ++ [starting_record filepath];
         requests := requests w ++ [r] |} in
  fst (Client.push_file_response env self filepath w)
    = match fst reads with
      | Ok _ => parsed_exchange (http_exchange env r)
      | Raise e => Raise e
      end
  /\ snd (Client.push_file_response env self filepath w)
     = snd (file_close (next_fd w) (snd reads)).
Proof.
  intros Hopen r reads.
  unfold Client.push_file_response, bind, logger_debug, with_file, path_open.
  rewrite Hopen. cbv beta iota.
  match goal with |- context [_storage_push env ?mon ?url ?w1] =>
    destruct (storage_push_run env mon url w1) as [Hs Hf];
    destruct (_storage_push env mon url w1) as [result w2] end.
  simpl in Hs, Hf. simpl fst. simpl snd at 1. subst w2. split; [exact Hf | reflexivity].
Qed.

(** [push_file] when the file does not open. *)
Lemma push_file_response_no_file (env : Env) (self : Client.t) (filepath : Path)
    (w : World) (e : exn) :
  open_error env filepath = Some e ->
  Client.push_file_response env self filepath w
    = (Raise e, {| open_files := open_files w;
                   next_fd := next_fd w;
                   stdout := stdout w;
                   log := log w ++ [starting_record filepath];
                   requests := requests w |}).
Proof.
  intros Hopen.
  unfold Client.push_file_response, bind, logger_debug, with_file, path_open.
  rewrite Hopen. reflexivity.
Qed.

(** The outcome of the [with] block for a non-empty body read in chunks of
    non-negative sizes. *)
Lemma push_file_response_outcome (env : Env) (self : Client.t) (filepath : Path) (w : World) :
  open_error env filepath = None ->
  0 < multipart_len env (Client.push_file_fields filepath (next_fd w)) ->
  Forall (fun size => 0 <= size)
    (chunks (http_exchange env (upload_request env self filepath (next_fd w)))) ->
  fst (Client.push_file_response env self filepath w)
    = parsed_exchange (http_exchange env (upload_request env self filepath (next_fd w))).
Proof.
  intros Hopen Hlen Hsizes.
  destruct (push_file_response_run env self filepath w Hopen) as [Hf _].
  rewrite Hf.
  match goal with |- context [read_all _progress ?m ?sz ?w1] =>
    destruct (read_all_succeeds sz m w1) as [m' Hm'] end;
    [exact Hlen | simpl; lia | exact Hsizes |].
  rewrite Hm'. reflexivity.
Qed.

Lemma sample_nonneg_reads : Forall (fun size => 0 <= size) [128; 128; 44].
Proof. repeat constructor; lia. Defined.

Lemma sample_upload_goes_through (environ : list (string * string)) (answer : Response)
    (session : M Response) (self : Client.t) :
  upload_goes_through (sample_env environ answer session) self sample_path sample_world.
Proof.
  split; [reflexivity | split; [reflexivity | exact sample_nonneg_reads]].
Defined.

Lemma unreachable_upload_goes_through (self : Client.t) :
  upload_goes_through env_unreachable self sample_path sample_world.
Proof.
  split; [reflexivity | split; [reflexivity | repeat constructor; lia]].
Defined.

(** Runs [push_file] on the answer [H] gives for an upload that goes
    through. *)
Ltac with_answer Hup H :=
  let Hopen := fresh in let Hlen := fresh in let Hsizes := fresh in
  destruct Hup as (Hopen & Hlen & Hsizes);
  pose proof (push_file_response_outcome _ _ _ _ Hopen Hlen Hsizes) as Hresp;
  unfold storage_answer in H; rewrite H in Hresp;
  unfold Client.push_file; unfold bind at 1;
  destruct (Client.push_file_response _ _ _ _) as [? ?];
  simpl in Hresp; subst; unfold bind, lift.

(** ** Further properties of the client *)



(** X2: before any byte is read the callback prints 0.00 percent, whatever
    the positive length of the body. *)
Theorem progress_at_start (m : MonitorState) (w : World) :
  0 < monitor_len m -> bytes_read m = 0 ->
  _progress m w = print ("Uploading... 0.00%" ++ carriage_return) w.
Proof.
  intros Hl Hb. unfold _progress. rewrite Hb.
  destruct (Z.leb_spec 0 (monitor_len m)) as [_ | Hgt]; [| lia].
  destruct (monitor_len m) as [| p | p]; try lia. reflexivity.
Qed.

Lemma progress_at_start_witness :
  (0 < monitor_len monitor_start /\ bytes_read monitor_start = 0)
  /\ stdout (snd (_progress monitor_start sample_world))
     = ["Uploading... 0.00%" ++ carriage_return].
Proof.
  split; [split; reflexivity |].
  rewrite (progress_at_start monitor_start sample_world); reflexivity.
Defined.

(** X3: all that [push_file] prints are progress texts of reads within the
    length of the body, at most one per read of the transport; it prints
    nothing when the file does not open. *)
Theorem push_file_prints_progress_only (env : Env) (self : Client.t) (filepath : Path)
    (w : World) :
  exists outs,
    stdout (snd (Client.push_file env self filepath w)) = (stdout w ++ outs)%list
    /\ Forall (progress_of
                 (multipart_len env (Client.push_file_fields filepath (next_fd w)))) outs
    /\ (length outs
        <= length (chunks (http_exchange env
                             (upload_request env self filepath (next_fd w)))))%nat
    /\ (open_error env filepath <> None -> outs = []).
Proof.
  rewrite push_file_after_response by apply logger_debug_keeps_stdout.
  destruct (open_error env filepath) as [e |] eqn:Hopen.
  - rewrite (push_file_response_no_file env self filepath w e Hopen).
    exists []. simpl. rewrite app_nil_r. repeat split; [constructor | lia].
  - destruct (push_file_response_run env self filepath w Hopen) as [_ Hs].
    rewrite Hs.
    match goal with |- context [read_all _progress ?m ?sz ?w1] =>
      destruct (read_all_prints sz m w1) as (outs & H1 & H2 & H3) end.
    exists outs. simpl in *. repeat split; try assumption. congruence.
Qed.

(** X4: when the file cannot be opened, [push_file] raises the error of the
    file system as it is; it has logged its first record and done nothing
    else: no request, no output, no handle. *)
Theorem push_file_open_failure (env : Env) (self : Client.t) (filepath : Path)
    (w : World) (e : exn) :
  open_error env filepath = Some e ->
  Client.push_file env self filepath w
    = (Raise e, {| open_files := open_files w;
                   next_fd := next_fd w;
                   stdout := stdout w;
                   log := log w ++ [starting_record filepath];
                   requests := requests w |}).
Proof.
  intros Hopen. unfold Client.push_file, bind at 1.
  rewrite (push_file_response_no_file env self filepath w e Hopen). reflexivity.
Qed.

Lemma push_file_open_failure_witness :
  open_error env_no_file sample_path = Some (OSError "No such file or directory")
  /\ fst (Client.push_file env_no_file (sample_client env_no_file) sample_path sample_world)
     = Raise (OSError "No such file or directory")
  /\ requests (snd (Client.push_file env_no_file (sample_client env_no_file)
                      sample_path sample_world)) = [].
Proof.
  split; [reflexivity |].
  rewrite (push_file_open_failure env_no_file (sample_client env_no_file) sample_path
             sample_world (OSError "No such file or directory") eq_refl).
  split; reflexivity.
Defined.

(** X5: an error of the exchange with the storage, or of the parsing of its
    answer, leaves [push_file] as it is: unlike [request_json], [push_file]
    wraps neither in a [CommandError]. *)
Theorem push_file_upload_error_untranslated (env : Env) (self : Client.t) (filepath : Path)
    (w : World) (e : exn) :
  upload_goes_through env self filepath w ->
  storage_answer env self filepath w = Raise e ->
  fst (Client.push_file env self filepath w) = Raise e.
Proof.
  intros Hup Hans. with_answer Hup Hans. reflexivity.
Qed.

Lemma push_file_upload_error_untranslated_witness :
  (upload_goes_through env_garbled (sample_client env_garbled) sample_path sample_world
   /\ storage_answer env_garbled (sample_client env_garbled) sample_path sample_world
      = Raise (JSONDecodeError "Expecting value"))
  /\ fst (Client.push_file env_garbled (sample_client env_garbled) sample_path sample_world)
     = Raise (JSONDecodeError "Expecting value").
Proof.
  split; [split; [apply sample_upload_goes_through | reflexivity] |].
  apply (push_file_upload_error_untranslated env_garbled (sample_client env_garbled)
           sample_path sample_world (JSONDecodeError "Expecting value"));
    [apply sample_upload_goes_through | reflexivity].
Defined.

(** X6: when the upload goes through and the storage answers a mapping
    whose [successful] is true in the sense of Python (not only [True]),
    [push_file] returns the value under [upload_id], of whatever type. *)
Theorem push_file_end_to_end (env : Env) (self : Client.t) (filepath : Path) (w : World)
    (result successful upload_id : pyval) :
  upload_goes_through env self filepath w ->
  storage_answer env self filepath w = Ok result ->
  getitem result "successful" = Ok successful ->
  truthy successful = true ->
  getitem result "upload_id" = Ok upload_id ->
  fst (Client.push_file env self filepath w) = Ok upload_id.
Proof.
  intros Hup Hans Hsucc Htrue Hid. with_answer Hup Hans.
  rewrite Hsucc, Htrue. simpl. rewrite Hid. reflexivity.
Qed.

Lemma push_file_end_to_end_witness :
  (upload_goes_through env_accepting_loosely (sample_client env_accepting_loosely)
     sample_path sample_world
   /\ storage_answer env_accepting_loosely (sample_client env_accepting_loosely)
        sample_path sample_world = Ok accepted_loosely
   /\ getitem accepted_loosely "successful" = Ok (PInt 1)
   /\ truthy (PInt 1) = true
   /\ getitem accepted_loosely "upload_id" = Ok (PInt 7))
  /\ fst (Client.push_file env_accepting_loosely (sample_client env_accepting_loosely)
            sample_path sample_world) = Ok (PInt 7).
Proof.
  split; [split; [apply sample_upload_goes_through | repeat split] |].
  apply (push_file_end_to_end env_accepting_loosely (sample_client env_accepting_loosely)
           sample_path sample_world accepted_loosely (PInt 1) (PInt 7));
    [apply sample_upload_goes_through | reflexivity ..].
Defined.

(** ** Logging, rejections and files: lemmas *)

Lemma file_close_keeps_log (fh : nat) : keeps log (file_close fh).
Proof. intros w. reflexivity. Qed.

Lemma push_file_response_log (env : Env) (self : Client.t) (filepath : Path) (w : World) :
  log (snd (Client.push_file_response env self filepath w))
  = (log w ++ [starting_record filepath])%list.
Proof.
  destruct (open_error env filepath) as [e |] eqn:Hopen.
  - rewrite (push_file_response_no_file env self filepath w e Hopen). reflexivity.
  - destruct (push_file_response_run env self filepath w Hopen) as [_ Hs].
    rewrite Hs. rewrite file_close_keeps_log.
    rewrite keeps_read_all; [reflexivity |].
    intros m. apply keeps__progress, print_keeps_log.
Qed.

Lemma push_file_response_next_fd (env : Env) (self : Client.t) (filepath : Path) (w : World) :
  (next_fd w <= next_fd (snd (Client.push_file_response env self filepath w)))%nat.
Proof.
  destruct (open_error env filepath) as [e |] eqn:Hopen.
  - rewrite (push_file_response_no_file env self filepath w e Hopen). simpl. lia.
  - destruct (push_file_response_run env self filepath w Hopen) as [_ Hs].
    rewrite Hs. change (next_fd (snd (file_close ?fh ?w1))) with (next_fd w1).
    rewrite keeps_read_all; [simpl; lia |].
    intros m. apply keeps__progress, print_keeps_next_fd.
Qed.

Lemma push_file_open_files (env : Env) (self : Client.t) (filepath : Path) (w : World) :
  handles_allocated w ->
  open_files (snd (Client.push_file env self filepath w)) = open_files w.
Proof.
  intros Hw.
  rewrite push_file_after_response by apply logger_debug_keeps_files.
  unfold Client.push_file_response, bind, logger_debug.
  rewrite with_file_restores; [reflexivity | | exact Hw].
  intros fh. apply storage_push_keeps_files. intros m.
  apply keeps__progress, print_keeps_files.
Qed.

Lemma push_file_keeps_allocated (env : Env) (self : Client.t) (filepath : Path) (w : World) :
  handles_allocated w -> handles_allocated (snd (Client.push_file env self filepath w)).
Proof.
  intros Hw fh Hin.
  rewrite push_file_open_files in Hin by exact Hw.
  apply Hw in Hin.
  rewrite push_file_after_response by apply logger_debug_keeps_next_fd.
  pose proof (push_file_response_next_fd env self filepath w). lia.
Qed.

Lemma push_file_requests (env : Env) (self : Client.t) (filepath : Path) (w : World) :
  open_error env filepath = None ->
  requests (snd (Client.push_file env self filepath w))
  = (requests w ++ [upload_request env self filepath (next_fd w)])%list.
Proof.
  intros Hopen.
  rewrite push_file_after_response by apply logger_debug_keeps_requests.
  destruct (push_file_response_run env self filepath w Hopen) as [_ Hs].
  rewrite Hs. rewrite file_close_keeps_requests.
  rewrite keeps_read_all; [reflexivity |].
  intros m. apply keeps__progress, print_keeps_requests.
Qed.

(** X7: [push_file] always logs "Starting to push" with the [repr] of the
    path; it logs "Uploading bytes ended" with the upload id exactly when it
    returns that id, and nothing else. *)
Theorem push_file_log (env : Env) (self : Client.t) (filepath : Path) (w : World) :
  log (snd (Client.push_file env self filepath w))
  = (log w ++ starting_record filepath
       :: match fst (Client.push_file env self filepath w) with
          | Ok upload_id => [ended_record upload_id]
          | Raise _ => []
          end)%list.
Proof.
  pose proof (push_file_response_log env self filepath w) as Hlog.
  remember (Client.push_file env self filepath w) as run eqn:Hrun.
  unfold Client.push_file, bind at 1 in Hrun.
  destruct (Client.push_file_response env self filepath w) as [[result | e] w1];
    simpl in Hlog; [| subst run; exact Hlog].
  unfold bind, lift in Hrun.
  destruct (getitem result "successful") as [successful | e]; [| subst run; exact Hlog].
  destruct (negb (truthy successful)); [subst run; exact Hlog |].
  destruct (getitem result "upload_id") as [upload_id | e]; [| subst run; exact Hlog].
  subst run. simpl. rewrite Hlog, <- app_assoc. reflexivity.
Qed.

(** X8: when the upload goes through and [successful] is false in the sense
    of Python ([False], [None], zero, an empty string or container),
    [push_file] raises the [CommandError] of the server error, and the value
    under [upload_id] is not looked at. *)
Theorem push_file_falsy_successful (env : Env) (self : Client.t) (filepath : Path)
    (w : World) (result successful : pyval) :
  upload_goes_through env self filepath w ->
  storage_answer env self filepath w = Ok result ->
  getitem result "successful" = Ok successful ->
  truthy successful = false ->
  fst (Client.push_file env self filepath w)
  = Raise (CommandError ("Server error while pushing file: " ++ str result) None).
Proof.
  intros Hup Hans Hsucc Hfalse. with_answer Hup Hans.
  rewrite Hsucc, Hfalse. reflexivity.
Qed.

Lemma push_file_falsy_successful_witness :
  (upload_goes_through env_rejecting_loosely (sample_client env_rejecting_loosely)
     sample_path sample_world
   /\ storage_answer env_rejecting_loosely (sample_client env_rejecting_loosely)
        sample_path sample_world = Ok rejected_loosely
   /\ getitem rejected_loosely "successful" = Ok PNone
   /\ truthy PNone = false)
  /\ fst (Client.push_file env_rejecting_loosely (sample_client env_rejecting_loosely)
            sample_path sample_world)
     = Raise (CommandError
                "Server error while pushing file: {'successful': None, 'upload_id': 'abc123'}"
                None).
Proof.
  split; [split; [apply sample_upload_goes_through | repeat split] |].
  apply (push_file_falsy_successful env_rejecting_loosely
           (sample_client env_rejecting_loosely) sample_path sample_world
           rejected_loosely PNone);
    [apply sample_upload_goes_through | reflexivity ..].
Defined.

(** X9: when the upload goes through and the answer of the storage is JSON
    but not a mapping, [push_file] fails with the [TypeError] of the
    subscription, not with a [CommandError]. *)
Theorem push_file_not_a_mapping (env : Env) (self : Client.t) (filepath : Path)
    (w : World) (result : pyval) :
  upload_goes_through env self filepath w ->
  storage_answer env self filepath w = Ok result ->
  (forall items, result <> PDict items) ->
  exists message, fst (Client.push_file env self filepath w) = Raise (TypeError message).
Proof.
  intros Hup Hans Hnot. with_answer Hup Hans.
  destruct result; try (eexists; reflexivity).
  exfalso. eapply Hnot. reflexivity.
Qed.

Lemma push_file_not_a_mapping_witness :
  (upload_goes_through env_answering_list (sample_client env_answering_list)
     sample_path sample_world
   /\ storage_answer env_answering_list (sample_client env_answering_list)
        sample_path sample_world = Ok (PList [PStr "abc123"])
   /\ forall items, PList [PStr "abc123"] <> PDict items)
  /\ exists message,
       fst (Client.push_file env_answering_list (sample_client env_answering_list)
              sample_path sample_world) = Raise (TypeError message).
Proof.
  split; [split; [apply sample_upload_goes_through | split; [reflexivity | discriminate]] |].
  apply (push_file_not_a_mapping env_answering_list (sample_client env_answering_list)
           sample_path sample_world (PList [PStr "abc123"]));
    [apply sample_upload_goes_through | reflexivity | discriminate].
Defined.

(** X10: uploads chain: after two calls of [push_file] in a row, whatever
    their outcomes, the open files are those of before the first call. *)
Theorem push_file_twice_closes_files (env : Env) (self1 self2 : Client.t)
    (filepath1 filepath2 : Path) (w : World) :
  handles_allocated w ->
  open_files (snd (Client.push_file env self2 filepath2
                     (snd (Client.push_file env self1 filepath1 w))))
  = open_files w.
Proof.
  intros Hw.
  rewrite push_file_open_files by (apply push_file_keeps_allocated; exact Hw).
  apply push_file_open_files. exact Hw.
Qed.

Lemma push_file_twice_closes_files_witness :
  handles_allocated sample_world
  /\ open_files (snd (Client.push_file env_accepting (sample_client env_accepting)
                        sample_path
                        (snd (Client.push_file env_accepting (sample_client env_accepting)
                                sample_path sample_world))))
     = [0%nat; 1%nat; 2%nat].
Proof.
  split; [exact sample_world_allocated |].
  apply (push_file_twice_closes_files env_accepting (sample_client env_accepting)
           (sample_client env_accepting) sample_path sample_path sample_world
           sample_world_allocated).
Defined.

(** ** Trailing slashes: lemmas *)

Lemma string_app_empty_r (s : string) : s ++ EmptyString = s.
Proof. induction s as [| c s IH]; simpl; [reflexivity | now rewrite IH]. Qed.

Lemma repeat_char_snoc (c : ascii) (n : nat) :
  repeat_char c (S n) = repeat_char c n ++ String c EmptyString.
Proof. induction n as [| n IH]; [reflexivity |]. simpl in *. now rewrite <- IH. Qed.

Lemma rstrip_all_slashes (n : nat) : rstrip "/" (repeat_char "/"%char n) = EmptyString.
Proof. induction n as [| n IH]; [reflexivity |]. simpl. now rewrite IH. Qed.

Lemma rstrip_app_slashes (s : string) (n : nat) :
  rstrip "/" (s ++ repeat_char "/"%char n) = rstrip "/" s.
Proof.
  induction s as [| c s IH].
  - apply rstrip_all_slashes.
  - simpl. now rewrite IH.
Qed.

Lemma rstrip_clean (s : string) : ~ ends_with_char "/"%char s -> rstrip "/" s = s.
Proof.
  intros Hclean. destruct (rstrip_slash_decompose s) as [[| n] Hn].
  - rewrite string_app_empty_r in Hn. now symmetry.
  - exfalso. apply Hclean. exists (rstrip "/" s ++ repeat_char "/"%char n).
    rewrite string_app_assoc, <- repeat_char_snoc. exact Hn.
Qed.

(** X11: trailing slashes of the URLs make no difference to the client
    that the constructor builds. *)
Theorem client_init_ignores_trailing_slashes (env : Env) (api_base_url storage_base_url : string)
    (m n : nat) :
  Client.__init__ env (api_base_url ++ repeat_char "/"%char m)
    (storage_base_url ++ repeat_char "/"%char n)
  = Client.__init__ env api_base_url storage_base_url.
Proof.
  unfold Client.__init__. now rewrite !rstrip_app_slashes.
Qed.

(** X12: URLs that do not end with a slash are stored as they are given. *)
Theorem client_init_keeps_clean_urls (env : Env) (api_base_url storage_base_url : string) :
  ~ ends_with_char "/"%char api_base_url ->
  ~ ends_with_char "/"%char storage_base_url ->
  base_url (Client.super (Client.__init__ env api_base_url storage_base_url)) = api_base_url
  /\ Client.storage_base_url (Client.__init__ env api_base_url storage_base_url)
     = storage_base_url.
Proof.
  intros Ha Hs. simpl. split; apply rstrip_clean; assumption.
Qed.

Lemma client_init_keeps_clean_urls_witness :
  (~ ends_with_char "/"%char "https://api.example.com"
   /\ ~ ends_with_char "/"%char "https://storage.example.com/v1")
  /\ Client.storage_base_url
       (Client.__init__ env_accepting "https://api.example.com"
          "https://storage.example.com/v1")
     = "https://storage.example.com/v1".
Proof.
  assert (Ha : ~ ends_with_char "/"%char "https://api.example.com")
    by exact (rstrip_slash_no_trailing "https://api.example.com").
  assert (Hs : ~ ends_with_char "/"%char "https://storage.example.com/v1")
    by exact (rstrip_slash_no_trailing "https://storage.example.com/v1").
  split; [split; assumption |].
  exact (proj2 (client_init_keeps_clean_urls env_accepting "https://api.example.com"
                  "https://storage.example.com/v1" Ha Hs)).
Defined.

(** X13: for a client made by the constructor, the one request of
    [push_file] goes to the storage URL without its trailing slashes followed
    by [/unscanned-upload/]: the path is never joined with a doubled
    slash. *)
Theorem push_file_upload_url (env : Env) (api_base_url storage_base_url : string)
    (filepath : Path) (w : World) :
  open_error env filepath = None ->
  exists r base n,
    requests (snd (Client.push_file env (Client.__init__ env api_base_url storage_base_url)
                     filepath w))
    = (requests w ++ [r])%list
    /\ req_url r = base ++ "/unscanned-upload/"
    /\ storage_base_url = base ++ repeat_char "/"%char n
    /\ ~ ends_with_char "/"%char base.
Proof.
  intros Hopen. destruct (rstrip_slash_decompose storage_base_url) as [n Hn].
  eexists; exists (rstrip "/" storage_base_url), n.
  split; [apply push_file_requests; exact Hopen |].
  split; [reflexivity | split; [exact Hn | apply rstrip_slash_no_trailing]].
Qed.

Lemma push_file_upload_url_witness :
  open_error env_accepting sample_path = None
  /\ exists r base n,
       requests (snd (Client.push_file env_accepting
                        (Client.__init__ env_accepting "https://api.example.com/"
                           "https://storage.example.com///")
                        sample_path sample_world))
       = [r]
       /\ req_url r = base ++ "/unscanned-upload/"
       /\ "https://storage.example.com///" = base ++ repeat_char "/"%char n
       /\ ~ ends_with_char "/"%char base.
Proof.
  split; [reflexivity |].
  exact (push_file_upload_url env_accepting "https://api.example.com/"
           "https://storage.example.com///" sample_path sample_world eq_refl).
Defined.

(** X14: no [StoreClientError] ever comes out of [request]. *)
Theorem request_never_raises_store_error (env : Env) (self : Client.t) (method url : string)
    (kwargs : list (string * pyval)) (w : World) (e : exn) :
  fst (Client.request env self method url kwargs w) = Raise e ->
  is_StoreClientError e = false.
Proof.
  unfold Client.request, try_except.
  destruct (StoreClient_request env (Client.super self) method url kwargs w)
    as [[response | e0] w1]; simpl.
  - discriminate.
  - destruct (is_StoreClientError e0) eqn:E; simpl; intros H; inversion H; subst; auto.
Qed.

Lemma request_never_raises_store_error_witness :
  fst (Client.request env_logged_out (sample_client env_logged_out) "GET" "/v1/whoami" []
         sample_world)
    = Raise (CommandError "not logged in" (Some (StoreClientError "not logged in")))
  /\ is_StoreClientError
       (CommandError "not logged in" (Some (StoreClientError "not logged in"))) = false.
Proof.
  split; [reflexivity |].
  apply (request_never_raises_store_error env_logged_out (sample_client env_logged_out)
           "GET" "/v1/whoami" [] sample_world). reflexivity.
Defined.

(** X15: when the session answers and the body parses, [request_json]
    returns the parsed body, and the world is as the session left it. *)
Theorem request_json_success (env : Env) (self : Client.t) (method url : string)
    (kwargs : list (string * pyval)) (w w1 : World) (response : Response) (body : pyval) :
  StoreClient_request env (Client.super self) method url kwargs w = (Ok response, w1) ->
  json response = Ok body ->
  Client.request_json env self method url kwargs w = (Ok body, w1).
Proof.
  intros Hsess Hjson.
  unfold Client.request_json, Client.request, bind, try_except, lift.
  rewrite Hsess, Hjson. reflexivity.
Qed.

Lemma request_json_success_witness :
  (StoreClient_request env_session_ok (Client.super (sample_client env_session_ok))
     "GET" "/v1/charm" [] sample_world = (Ok (answer_of 200 (Ok accepted)), sample_world)
   /\ json (answer_of 200 (Ok accepted)) = Ok accepted)
  /\ Client.request_json env_session_ok (sample_client env_session_ok) "GET" "/v1/charm" []
       sample_world = (Ok accepted, sample_world).
Proof.
  split; [split; reflexivity |].
  apply (request_json_success env_session_ok (sample_client env_session_ok) "GET"
           "/v1/charm" [] sample_world sample_world (answer_of 200 (Ok accepted)) accepted);
    reflexivity.
Defined.

(** X16: an error of the session comes out of [request_json] as it comes
    out of [request]: a [StoreClientError] as a [CommandError] with its
    text, any other error unchanged, even a [JSONDecodeError], since the
    [try] block of [request_json] holds the parsing only. *)
Theorem request_json_session_error (env : Env) (self : Client.t) (method url : string)
    (kwargs : list (string * pyval)) (w w1 : World) (e : exn) :
  StoreClient_request env (Client.super self) method url kwargs w = (Raise e, w1) ->
  Client.request_json env self method url kwargs w
  = (Raise (if is_StoreClientError e then CommandError (exn_str e) (Some e) else e), w1).
Proof.
  intros Hsess.
  unfold Client.request_json, Client.request, bind, try_except.
  rewrite Hsess. destruct (is_StoreClientError e); reflexivity.
Qed.

Lemma request_json_session_error_witness :
  StoreClient_request env_session_down (Client.super (sample_client env_session_down))
    "GET" "/v1/charm" [] sample_world
    = (Raise (OtherError "ConnectionError" "name resolution failed"), sample_world)
  /\ Client.request_json env_session_down (sample_client env_session_down) "GET"
       "/v1/charm" [] sample_world
     = (Raise (OtherError "ConnectionError" "name resolution failed"), sample_world).
Proof.
  split; [reflexivity |].
  apply (request_json_session_error env_session_down (sample_client env_session_down)
           "GET" "/v1/charm" [] sample_world sample_world
           (OtherError "ConnectionError" "name resolution failed")).
  reflexivity.
Defined.

(** X17: an error of [json()] that is not a [JSONDecodeError] comes out of
    [request_json] unchanged. *)
Theorem request_json_other_parse_error (env : Env) (self : Client.t) (method url : string)
    (kwargs : list (string * pyval)) (w w1 : World) (response : Response) (e : exn) :
  StoreClient_request env (Client.super self) method url kwargs w = (Ok response, w1) ->
  json response = Raise e ->
  is_JSONDecodeError e = false ->
  Client.request_json env self method url kwargs w = (Raise e, w1).
Proof.
  intros Hsess Hjson Hclass.
  unfold Client.request_json, Client.request, bind, try_except, lift.
  rewrite Hsess, Hjson, Hclass. reflexivity.
Qed.

Lemma request_json_other_parse_error_witness :
  (StoreClient_request env_session_undecodable
     (Client.super (sample_client env_session_undecodable)) "GET" "/v1/charm" []
     sample_world
   = (Ok (answer_of 200 (Raise (OtherError "UnicodeDecodeError" "invalid start byte"))),
      sample_world)
   /\ json (answer_of 200 (Raise (OtherError "UnicodeDecodeError" "invalid start byte")))
      = Raise (OtherError "UnicodeDecodeError" "invalid start byte")
   /\ is_JSONDecodeError (OtherError "UnicodeDecodeError" "invalid start byte") = false)
  /\ Client.request_json env_session_undecodable (sample_client env_session_undecodable)
       "GET" "/v1/charm" [] sample_world
     = (Raise (OtherError "UnicodeDecodeError" "invalid start byte"), sample_world).
Proof.
  split; [repeat split |].
  apply (request_json_other_parse_error env_session_undecodable
           (sample_client env_session_undecodable) "GET" "/v1/charm" [] sample_world
           sample_world
           (answer_of 200 (Raise (OtherError "UnicodeDecodeError" "invalid start byte")))
           (OtherError "UnicodeDecodeError" "invalid start byte"));
    reflexivity.
Defined.

(** X18: [visit_page_with_browser] logs one warning that holds the URL
    before it turns to the browser, so the URL is in the log whatever the
    browser does; what the browser answers is dropped, and only an exception
    of the browser makes the call fail. *)
Theorem visit_page_logs_url (webbrowser_open : string -> Z -> M bool) (visit_url : string)
    (w : World) :
  keeps log (webbrowser_open visit_url 1) ->
  exists message,
    log (snd (visit_page_with_browser webbrowser_open visit_url w))
    = (log w ++ [{| log_level := "WARNING"; log_message := message |}])%list
    /\ contains visit_url message
    /\ fst (visit_page_with_browser webbrowser_open visit_url w)
       = match fst (webbrowser_open visit_url 1 (snd (logger_warning message w))) with
         | Ok _ => Ok tt
         | Raise e => Raise e
         end.
Proof.
  intros Hkeeps. eexists. unfold visit_page_with_browser.
  split; [| split].
  - rewrite bind_then_keeps.
    + reflexivity.
    + intros _. apply keeps_bind; [exact Hkeeps | intros _; apply keeps_ret].
  - rewrite <- string_app_assoc. apply contains_suffix.
  - unfold bind at 1. simpl. unfold bind, ret.
    match goal with |- context [webbrowser_open visit_url 1 ?w1] =>
      destruct (webbrowser_open visit_url 1 w1) as [[opened | e] w2] end; reflexivity.
Qed.

Lemma visit_page_logs_url_witness :
  keeps log (no_browser "https://login.example.com/auth?id=42" 1)
  /\ exists message,
       log (snd (visit_page_with_browser no_browser "https://login.example.com/auth?id=42"
                   sample_world))
       = [{| log_level := "WARNING"; log_message := message |}]
       /\ contains "https://login.example.com/auth?id=42" message
       /\ fst (visit_page_with_browser no_browser "https://login.example.com/auth?id=42"
                 sample_world)
          = match fst (no_browser "https://login.example.com/auth?id=42" 1
                         (snd (logger_warning message sample_world))) with
            | Ok _ => Ok tt
            | Raise e => Raise e
            end.
Proof.
  assert (H : keeps log (no_browser "https://login.example.com/auth?id=42" 1))
    by (intros w; reflexivity).
  split; [exact H |].
  exact (visit_page_logs_url no_browser "https://login.example.com/auth?id=42"
           sample_world H).
Defined.

(** ** A complete upload: lemmas *)

Lemma read_all_app (cb : MonitorState -> M unit) (front back : list Z) :
  forall (m : MonitorState) (w : World),
    read_all cb m (front ++ back) w
    = match read_all cb m front w with
      | (Ok m1, w1) => read_all cb m1 back w1
      | (Raise e, w1) => (Raise e, w1)
      end.
Proof.
  induction front as [| size front IH]; intros m w; simpl.
  - reflexivity.
  - unfold bind. destruct (cb _ w) as [[[] | e] w1]; [apply IH | reflexivity].
Qed.

Lemma read_all_state (cb : MonitorState -> M unit) (sizes : list Z) :
  forall (m m' : MonitorState) (w : World),
    fst (read_all cb m sizes w) = Ok m' ->
    m' = {| encoder := encoder m; bytes_read := bytes_read m + total_read sizes |}.
Proof.
  induction sizes as [| size rest IH]; intros m m' w; simpl.
  - intros H. inversion H. destruct m'. simpl. f_equal. lia.
  - unfold bind. destruct (cb _ w) as [[[] | e] w1]; simpl; [| discriminate].
    intros H. apply IH in H. rewrite H. simpl. f_equal. lia.
Qed.

Lemma total_read_app (front back : list Z) :
  total_read (front ++ back) = total_read front + total_read back.
Proof.
  induction front as [| size front IH]; simpl; [reflexivity |].
  unfold total_read in *. simpl. lia.
Qed.

(** Reads of non-negative sizes that end exactly at the length of a
    non-empty body print the 100 percent text last. *)
Lemma read_all_ends_at_100 (front : list Z) (last : Z) (m : MonitorState) (w : World) :
  0 < monitor_len m -> 0 <= bytes_read m ->
  Forall (fun size => 0 <= size) (front ++ [last]) ->
  bytes_read m + total_read (front ++ [last]) = monitor_len m ->
  exists outs,
    stdout (snd (read_all _progress m (front ++ [last]) w))
    = (stdout w ++ outs ++ [progress_line_100])%list.
Proof.
  intros Hl Hb Hsizes Hsum.
  apply Forall_app in Hsizes. destruct Hsizes as [Hfront Hlast].
  rewrite read_all_app.
  destruct (read_all_succeeds front m w Hl Hb Hfront) as [m1 Hm1].
  destruct (read_all_prints front m w) as (outs & Hout & _ & _).
  pose proof (read_all_state _progress front m m1 w Hm1) as Hstate.
  destruct (read_all _progress m front w) as [o w1]. simpl in Hm1, Hout. subst o.
  exists outs. simpl read_all. unfold bind.
  set (m2 := {| encoder := encoder m1; bytes_read := bytes_read m1 + last |}).
  assert (Hfull : bytes_read m2 = monitor_len m2).
  { subst m2 m1. unfold monitor_len in *. simpl.
    rewrite total_read_app in Hsum. unfold total_read at 2 in Hsum. simpl in Hsum. lia. }
  assert (Hl2 : 0 < monitor_len m2) by (subst m2 m1; exact Hl).
  assert (Hrun : _progress m2 w1 = print progress_line_100 w1).
  { unfold _progress. rewrite Hfull, Z.leb_refl, int_truediv_100 by exact Hl2. reflexivity. }
  rewrite Hrun. simpl. rewrite Hout, <- app_assoc. reflexivity.
Qed.

(** X19: when the upload goes through and the reads of the transport add up
    to the length of the body, the last thing [push_file] prints is
    100.00 percent. *)
Theorem push_file_ends_at_100 (env : Env) (self : Client.t) (filepath : Path) (w : World)
    (front : list Z) (last : Z) :
  upload_goes_through env self filepath w ->
  chunks (http_exchange env (upload_request env self filepath (next_fd w)))
    = (front ++ [last])%list ->
  total_read (front ++ [last])
    = multipart_len env (Client.push_file_fields filepath (next_fd w)) ->
  exists outs,
    stdout (snd (Client.push_file env self filepath w))
    = (stdout w ++ outs ++ [progress_line_100])%list.
Proof.
  intros (Hopen & Hlen & Hsizes) Hchunks Hsum.
  rewrite push_file_after_response by apply logger_debug_keeps_stdout.
  destruct (push_file_response_run env self filepath w Hopen) as [_ Hs].
  rewrite Hs. change (stdout (snd (file_close ?fh ?w1))) with (stdout w1).
  rewrite Hchunks in *.
  match goal with |- context [read_all _progress ?m ?sz ?w1] =>
    destruct (read_all_ends_at_100 front last m w1) as [outs Hout] end;
    [exact Hlen | simpl; lia | exact Hsizes | exact Hsum |].
  exists outs. exact Hout.
Qed.

Lemma push_file_ends_at_100_witness :
  (upload_goes_through env_accepting (sample_client env_accepting) sample_path sample_world
   /\ chunks (http_exchange env_accepting
                (upload_request env_accepting (sample_client env_accepting) sample_path
                   (next_fd sample_world)))
      = ([128; 128] ++ [44])%list
   /\ total_read ([128; 128] ++ [44])
      = multipart_len env_accepting
          (Client.push_file_fields sample_path (next_fd sample_world)))
  /\ exists outs,
       stdout (snd (Client.push_file env_accepting (sample_client env_accepting)
                      sample_path sample_world))
       = (stdout sample_world ++ outs ++ [progress_line_100])%list.
Proof.
  split; [split; [apply sample_upload_goes_through | split; reflexivity] |].
  apply (push_file_ends_at_100 env_accepting (sample_client env_accepting) sample_path
           sample_world [128; 128] 44);
    [apply sample_upload_goes_through | reflexivity | reflexivity].
Defined.
